(** * Multilingual summarizer: the content-ingestion pipeline

    A shallow embedding of the text chunker ([src/utils/localStorage.ts]),
    the language sampler ([languageDetection]), the PDF engine
    ([src/utils/pdfUtils.ts]) and the format dispatcher with its extractors
    ([src/utils/fileProcessors.ts]), followed by the properties proved of
    them.

    Conventions.
    - A JavaScript string is the list of its UTF-16 code units, so that
      [length] is [.length] and every index is a code-unit index.
    - A regular expression is embedded as its matcher: a function that, at
      the current position, answers the length of the match (and the
      captured group) or [None].  The loops that drive a matcher over a
      string ([split], [replace] with the [g] flag, repeated [exec]) are
      written once.
    - Code that may throw returns an [outcome]; [try]/[catch] is
      [tryCatch].  Third-party libraries and browser built-ins (pdf.js,
      mammoth, JSZip, PapaParse, franc, DOMParser, TextDecoder, JSON.parse,
      case conversion) are the fields of a [Platform] record.
    - A promise the code awaits is taken to settle, but in [PdfPromises],
      where the pdf.js promises that are awaited with no timer may stay
      pending.  A call that never returns is [None], or [Pending]. *)

From Stdlib Require Import Ascii String DecimalString.
From Stdlib Require Import List NArith ZArith Bool Arith Lia.
Import ListNotations.

(* ================================================================== *)
(** * Part I: the embedding *)
(* ================================================================== *)

(** ** JavaScript strings and the string built-ins the code uses *)

Module JS.

Definition jsstring : Type := list N.

(** An ASCII literal as a JavaScript string. *)
Definition str (s : string) : jsstring :=
  map N_of_ascii (list_ascii_of_string s).

Definition nl : jsstring := [10%N].

Definition eqb (a b : jsstring) : bool :=
  if list_eq_dec N.eq_dec a b then true else false.

(** [Number.prototype.toString] on a non-negative integer. *)
Definition decimal (n : nat) : jsstring :=
  str (NilZero.string_of_uint (Nat.to_uint n)).

(** The class [\s] (and the characters [trim] strips): WhiteSpace and
    LineTerminator of ECMAScript. *)
Definition isSpace (c : N) : bool :=
  ((9 <=? c) && (c <=? 13) || (c =? 32) || (c =? 160) || (c =? 5760)
   || (8192 <=? c) && (c <=? 8202) || (c =? 8232) || (c =? 8233)
   || (c =? 8239) || (c =? 8287) || (c =? 12288) || (c =? 65279))%N.

Definition isNewline (c : N) : bool := (c =? 10)%N.

Definition inRange (lo hi c : N) : bool := ((lo <=? c) && (c <=? hi))%N.

(** [[a-zA-Z]] *)
Definition isLetter (c : N) : bool := inRange 65 90 c || inRange 97 122 c.

(** [[0-9]] *)
Definition isDigit (c : N) : bool := inRange 48 57 c.

(** [[0-9A-F]] *)
Definition isUpperHex (c : N) : bool := inRange 48 57 c || inRange 65 70 c.

Fixpoint takeWhile (p : N -> bool) (s : jsstring) : jsstring :=
  match s with
  | c :: s' => if p c then c :: takeWhile p s' else []
  | [] => []
  end.

Fixpoint dropWhile (p : N -> bool) (s : jsstring) : jsstring :=
  match s with
  | c :: s' => if p c then dropWhile p s' else s
  | [] => []
  end.

(** The characters of a text that are not white space, in order. *)
Definition visible (s : jsstring) : jsstring :=
  filter (fun c => negb (isSpace c)) s.

(** [String.prototype.trim] *)
Definition trimStart (s : jsstring) : jsstring := dropWhile isSpace s.
Definition trimEnd (s : jsstring) : jsstring := rev (dropWhile isSpace (rev s)).
Definition trim (s : jsstring) : jsstring := trimEnd (trimStart s).

Fixpoint startsWith (p s : jsstring) : bool :=
  match p, s with
  | [], _ => true
  | _ :: _, [] => false
  | a :: p', b :: s' => (a =? b)%N && startsWith p' s'
  end.

(** [String.prototype.includes] *)
Fixpoint includes (s sub : jsstring) : bool :=
  startsWith sub s ||
  match s with
  | [] => false
  | _ :: s' => includes s' sub
  end.

(** [String.prototype.slice(start, end)] with its index arithmetic: a
    negative index counts from the end, and both are clamped to the
    string. *)
Definition relativeIndex (len i : Z) : Z :=
  if (i <? 0)%Z then Z.max (len + i) 0 else Z.min i len.

Definition slice (s : jsstring) (start stop : Z) : jsstring :=
  let len := Z.of_nat (length s) in
  let from := relativeIndex len start in
  let to := relativeIndex len stop in
  firstn (Z.to_nat (to - from)) (skipn (Z.to_nat from) s).

(** [slice(start)] *)
Definition sliceFrom (s : jsstring) (start : Z) : jsstring :=
  slice s start (Z.of_nat (length s)).

(** [String.prototype.substring(start, end)]: negative indices count as
    0, and the two are swapped when out of order. *)
Definition substring (s : jsstring) (start stop : Z) : jsstring :=
  let len := Z.of_nat (length s) in
  let a := Z.min (Z.max start 0) len in
  let b := Z.min (Z.max stop 0) len in
  firstn (Z.to_nat (Z.max a b - Z.min a b)) (skipn (Z.to_nat (Z.min a b)) s).

(** [Array.prototype.join] *)
Fixpoint join (sep : jsstring) (l : list jsstring) : jsstring :=
  match l with
  | [] => []
  | [x] => x
  | x :: rest => x ++ sep ++ join sep rest
  end.

(** [x || fallback] on strings: the empty string is falsy. *)
Definition orElse (x fallback : jsstring) : jsstring :=
  match x with [] => fallback | _ => x end.

(** *** Regular expressions as matchers

    A matcher receives the text before the current position (reversed,
    for look-behind) and the text from the current position on. *)

Definition matcher : Type := jsstring -> jsstring -> option nat.

(** A matcher all of whose matches are white space. *)
Definition matchesSpace (m : matcher) : Prop :=
  forall before s n, m before s = Some n ->
    forallb isSpace (firstn n s) = true.

(** [String.prototype.split(re)]: try the matcher at every position;
    at a match, close the current piece and jump past the match.  None
    of the expressions used matches the empty string. *)
Fixpoint splitLoop (m : matcher) (before piece : jsstring) (skip : nat)
    (s : jsstring) : list jsstring :=
  match s with
  | [] => [rev piece]
  | c :: s' =>
      match skip with
      | S k => splitLoop m (c :: before) piece k s'
      | O =>
          match m before s with
          | Some (S k) => rev piece :: splitLoop m (c :: before) [] k s'
          | _ => splitLoop m (c :: before) (c :: piece) 0 s'
          end
      end
  end.

Definition split (m : matcher) (s : jsstring) : list jsstring :=
  splitLoop m [] [] 0 s.

(** [String.prototype.replace(re, by)] with the [g] flag. *)
Fixpoint replaceLoop (m : matcher) (by_ : jsstring) (before : jsstring)
    (skip : nat) (s : jsstring) : jsstring :=
  match s with
  | [] => []
  | c :: s' =>
      match skip with
      | S k => replaceLoop m by_ (c :: before) k s'
      | O =>
          match m before s with
          | Some (S k) => by_ ++ replaceLoop m by_ (c :: before) k s'
          | _ => c :: replaceLoop m by_ (c :: before) 0 s'
          end
      end
  end.

Definition replaceAll (m : matcher) (by_ s : jsstring) : jsstring :=
  replaceLoop m by_ [] 0 s.

(** [/\n\n+/] *)
Definition reBlankLines : matcher := fun _ s =>
  match s with
  | a :: b :: rest =>
      if isNewline a && isNewline b
      then Some (2 + length (takeWhile isNewline rest))
      else None
  | _ => None
  end.

(** [/(?<=[.!?])\s+/]: a run of white space right after [.], [!] or [?]. *)
Definition isSentenceEnd (c : N) : bool :=
  ((c =? 46) || (c =? 33) || (c =? 63))%N.

Definition reAfterSentence : matcher := fun before s =>
  match before with
  | p :: _ =>
      if isSentenceEnd p then
        match length (takeWhile isSpace s) with
        | O => None
        | n => Some n
        end
      else None
  | [] => None
  end.

(** [/\s+/] *)
Definition reSpaces : matcher := fun _ s =>
  match length (takeWhile isSpace s) with
  | O => None
  | n => Some n
  end.

End JS.

Import JS.

(** ** Outcomes of code that may throw *)

Inductive outcome (A : Type) : Type :=
| Ok (value : A)
| Throw (message : jsstring).

Arguments Ok {A} value.
Arguments Throw {A} message.

Definition bind {A B : Type} (x : outcome A) (k : A -> outcome B) : outcome B :=
  match x with
  | Ok a => k a
  | Throw e => Throw e
  end.

(** [try { body } catch (error) { handler(error.message) }] *)
Definition tryCatch {A : Type} (body : outcome A)
    (handler : jsstring -> outcome A) : outcome A :=
  match body with
  | Ok a => Ok a
  | Throw e => handler e
  end.

Notation "x <- a ;; k" := (bind a (fun x => k))
  (at level 61, a at next level, right associativity).

(** ** The content chunker: [chunkContent] *)

Module Chunker.

(** [while (i < sentence.length) { chunks.push(sentence.slice(i, i +
    maxChunkSize)); i += maxChunkSize; }].  The loop does not end when
    [maxChunkSize] is 0: [None] stands for that. *)
Fixpoint sliceLoop (fuel : nat) (sentence : jsstring) (maxChunkSize i : nat)
    (chunks : list jsstring) : option (list jsstring) :=
  if i <? length sentence then
    match fuel with
    | O => None
    | S fuel' =>
        sliceLoop fuel' sentence maxChunkSize (i + maxChunkSize)
          (chunks ++ [slice sentence (Z.of_nat i) (Z.of_nat (i + maxChunkSize))])
    end
  else Some chunks.

(** The loop over the sentences of one over-long paragraph; the state is
    [chunks] and [sentenceChunk]. *)
Fixpoint sentenceLoop (maxChunkSize : nat) (sentences : list jsstring)
    (chunks : list jsstring) (sentenceChunk : jsstring)
    : option (list jsstring * jsstring) :=
  match sentences with
  | [] => Some (chunks, sentenceChunk)
  | sentence :: rest =>
      if maxChunkSize <? length sentenceChunk + length sentence + 1 then
        if maxChunkSize <? length sentence then
          let saved :=
            if 0 <? length sentenceChunk
            then (chunks ++ [sentenceChunk], [])
            else (chunks, sentenceChunk) in
          match sliceLoop (length sentence) sentence maxChunkSize 0 (fst saved) with
          | Some chunks' => sentenceLoop maxChunkSize rest chunks' (snd saved)
          | None => None
          end
        else
          sentenceLoop maxChunkSize rest (chunks ++ [sentenceChunk])
            (sentence ++ str " ")
      else
        sentenceLoop maxChunkSize rest chunks (sentenceChunk ++ sentence ++ str " ")
  end.

(** The loop over the paragraphs; the state is [chunks] and
    [currentChunk]. *)
Fixpoint paragraphLoop (maxChunkSize : nat) (paragraphs : list jsstring)
    (chunks : list jsstring) (currentChunk : jsstring)
    : option (list jsstring * jsstring) :=
  match paragraphs with
  | [] => Some (chunks, currentChunk)
  | paragraph :: rest =>
      if maxChunkSize <? length currentChunk + length paragraph + 2 then
        if maxChunkSize <? length paragraph then
          let saved :=
            if 0 <? length currentChunk
            then (chunks ++ [currentChunk], [])
            else (chunks, currentChunk) in
          let sentences := split reAfterSentence paragraph in
          match sentenceLoop maxChunkSize sentences (fst saved) [] with
          | Some (chunks', sentenceChunk) =>
              let chunks'' :=
                if 0 <? length sentenceChunk
                then chunks' ++ [sentenceChunk] else chunks' in
              paragraphLoop maxChunkSize rest chunks'' (snd saved)
          | None => None
          end
        else
          paragraphLoop maxChunkSize rest (chunks ++ [currentChunk])
            (paragraph ++ nl ++ nl)
      else
        paragraphLoop maxChunkSize rest chunks (currentChunk ++ paragraph ++ nl ++ nl)
  end.

(** [maxChunkSize] is a number of characters: a natural number here.
    [None] is the call that does not return. *)
Definition chunkContent (content : jsstring) (maxChunkSize : nat)
    : option (list jsstring) :=
  if length content <=? maxChunkSize then Some [content]
  else
    let paragraphs := split reBlankLines content in
    match paragraphLoop maxChunkSize paragraphs [] [] with
    | Some (chunks, currentChunk) =>
        Some (if 0 <? length currentChunk
              then chunks ++ [currentChunk] else chunks)
    | None => None
    end.

(** *** The invariant of the two loops, for the proofs *)

(** What a loop hands on: the chunks it pushed and the chunk it still
    holds keep the text of what it held and read, stay within [bound],
    and are not both empty unless it held and read nothing. *)
Definition handsOn (bound : nat) (items : list jsstring)
    (held : jsstring) (pushed : list jsstring) (held' : jsstring) : Prop :=
  visible (concat pushed ++ held') = visible (held ++ concat items)
  /\ (length held <= bound ->
      Forall (fun chunk => length chunk <= bound) pushed /\ length held' <= bound)
  /\ (items <> [] \/ held <> [] -> pushed <> [] \/ held' <> []).

(** *** What stands before a character

    To say what the chunker does to white space, each character that is
    not white space is taken with what stands right before it in its
    string: nothing, white space, or another such character. *)







End Chunker.

(** ** The language sampler and detector adapter: [detectLanguage] *)

Module LanguageDetection.

Definition languageMap : list (jsstring * jsstring) :=
  map (fun kv => (str (fst kv), str (snd kv)))
  [ ("eng", "English"); ("spa", "Spanish"); ("fra", "French");
    ("deu", "German"); ("ita", "Italian"); ("por", "Portuguese");
    ("nld", "Dutch"); ("rus", "Russian"); ("zho", "Chinese");
    ("cmn", "Chinese (Mandarin)"); ("jpn", "Japanese"); ("kor", "Korean");
    ("ara", "Arabic"); ("hin", "Hindi"); ("ben", "Bengali");
    ("tur", "Turkish"); ("tha", "Thai"); ("vie", "Vietnamese");
    ("swe", "Swedish"); ("nor", "Norwegian"); ("dan", "Danish");
    ("fin", "Finnish"); ("pol", "Polish"); ("ces", "Czech");
    ("slk", "Slovak"); ("ell", "Greek"); ("hun", "Hungarian");
    ("ron", "Romanian"); ("ukr", "Ukrainian"); ("bul", "Bulgarian");
    ("ind", "Indonesian"); ("msa", "Malay"); ("heb", "Hebrew");
    ("fas", "Persian"); ("urd", "Urdu"); ("tel", "Telugu");
    ("tam", "Tamil"); ("mar", "Marathi"); ("guj", "Gujarati");
    ("kan", "Kannada"); ("mal", "Malayalam"); ("swa", "Swahili");
    ("amh", "Amharic"); ("kat", "Georgian"); ("hye", "Armenian");
    ("lat", "Latin"); ("san", "Sanskrit"); ("gle", "Irish");
    ("gla", "Scottish Gaelic"); ("cym", "Welsh"); ("yue", "Cantonese");
    ("afr", "Afrikaans"); ("nep", "Nepali"); ("cat", "Catalan");
    ("bak", "Bashkir"); ("bel", "Belarusian"); ("tgl", "Tagalog");
    ("lit", "Lithuanian"); ("lav", "Latvian"); ("est", "Estonian");
    ("hrv", "Croatian"); ("srp", "Serbian"); ("slv", "Slovenian");
    ("mkd", "Macedonian"); ("aze", "Azerbaijani"); ("uzb", "Uzbek");
    ("kaz", "Kazakh"); ("kir", "Kyrgyz"); ("tuk", "Turkmen");
    ("mon", "Mongolian"); ("glg", "Galician"); ("eus", "Basque") ]%string.

(** [languageMap[langCode]]; [None] is [undefined].  (Codes that name a
    member of [Object.prototype] are not codes franc answers.) *)
Fixpoint lookup (m : list (jsstring * jsstring)) (key : jsstring)
    : option jsstring :=
  match m with
  | [] => None
  | (k, v) :: rest => if eqb k key then Some v else lookup rest key
  end.

(** [languageMap[langCode] || langCode], after the test for ['und']. *)
Definition languageName (langCode : jsstring) : jsstring :=
  if eqb langCode (str "und") then str "unknown"
  else
    match lookup languageMap langCode with
    | Some ((_ :: _) as name) => name
    | _ => langCode
    end.

Section Detector.

(** The [franc] import: [None] when it is not a function, else the
    detector, which may throw. *)
Variable franc : option (jsstring -> outcome jsstring).

Definition francDetect (text : jsstring) : jsstring :=
  match franc with
  | None => str "und"
  | Some detect =>
      let normalizedText := replaceAll reSpaces (str " ") (trim text) in
      if length normalizedText <? 20 then str "und"
      else
        match detect normalizedText with
        | Ok code => code
        | Throw _ => str "und"
        end
  end.

(** The sample handed to [francDetect]. *)
Definition sampleText (textString : jsstring) : jsstring :=
  let textLength := Z.of_nat (length textString) in
  if (2000 <? textLength)%Z then
    let startSample := slice textString 0 600 in
    let middleStart := (textLength / 2 - 300)%Z in
    let middleSample := slice textString middleStart (middleStart + 600) in
    let endSample := sliceFrom textString (textLength - 600) in
    startSample ++ str " " ++ middleSample ++ str " " ++ endSample
  else if (1000 <? textLength)%Z then slice textString 0 1000
  else textString.

Definition detectLanguage (text : jsstring) : jsstring :=
  if eqb (trim text) [] then str "unknown"
  else languageName (francDetect (sampleText text)).

End Detector.

(** The sampling policy in the words of the specification: whole up to
    1000 characters, the first 1000 up to 2000, and beyond that the first
    600, the 600 around the midpoint and the last 600, with a space
    between the zones. *)
Definition policySample (text : jsstring) : jsstring :=
  let n := length text in
  if n <=? 1000 then text
  else if n <=? 2000 then firstn 1000 text
  else firstn 600 text ++ str " "
       ++ firstn 600 (skipn (n / 2 - 300) text) ++ str " "
       ++ skipn (n - 600) text.

End LanguageDetection.

(** ** What the libraries and the browser hand to the code *)

Definition bytes : Type := list Byte.byte.

(** [metadata.info]: an entry that is missing or not a string is the
    empty string, which [||] treats alike. *)
Record PdfInfo : Type := {
  Title : jsstring;
  Author : jsstring
}.

(** A page, through what its two reads answer: [textContent] is
    [getPage] then [getTextContent()] raced against the five-second
    timer, [simpleTextContent] is the second [getPage], [getViewport] and
    [getTextContent({ disableCombineTextItems: true })].  Each answers the
    [str] of the text items, or throws: the promises that the code awaits
    with no timer are taken to settle here, and [PdfPromises] below does
    without that. *)
Record PdfPage : Type := {
  textContent : outcome (list jsstring);
  simpleTextContent : outcome (list jsstring)
}.

(** [metadata] is [None] when [getMetadata] throws or has no [info]. *)
Record PdfDocument : Type := {
  metadata : option PdfInfo;
  pages : list PdfPage
}.

Definition numPages (d : PdfDocument) : nat := length (pages d).

(** A parsed JSON value.  A number is kept as the text JavaScript prints
    for it; the fields of an object come in the order [Object.entries]
    lists them. *)
#[local] Unset Elimination Schemes.
Inductive json : Type :=
| JNull
| JBool (b : bool)
| JNumber (shown : jsstring)
| JString (s : jsstring)
| JArray (items : list json)
| JObject (fields : list (jsstring * json)).
#[local] Set Elimination Schemes.

(** The document [DOMParser] builds, once the [script] and [style]
    elements are removed: [textContent] is [doc.body.textContent ||
    doc.documentElement.textContent], [description] the [content] of
    [meta[name="description"]] when there is one. *)
Record HtmlDocument : Type := {
  htmlTextContent : jsstring;
  htmlTitle : jsstring;
  htmlDescription : option jsstring
}.

(** What PapaParse reports with [header: true]: a row is an object from
    header to cell. *)
Record PapaResults : Type := {
  data : list (list (jsstring * jsstring));
  errors : list jsstring;
  fields : list jsstring
}.

Inductive PapaOutcome : Type :=
| PapaComplete (results : PapaResults)
| PapaError (message : jsstring).

(** A [File]: its name, declared MIME type and size, and what reading it
    answers. *)
Record File : Type := {
  file_name : jsstring;
  file_type : jsstring;
  file_size : N;
  file_arrayBuffer : outcome bytes;
  file_text : outcome jsstring
}.

Record Platform : Type := {
  (** [String.prototype.toLowerCase], [toUpperCase] *)
  toLowerCase : jsstring -> jsstring;
  toUpperCase : jsstring -> jsstring;
  (** [pdfjs.getDocument(...).promise] raced against the fifteen-second
      timer *)
  getDocument : bytes -> outcome PdfDocument;
  (** [new TextDecoder('utf-8').decode] *)
  decode : bytes -> outcome jsstring;
  (** [(await mammoth.extractRawText({ arrayBuffer })).value] *)
  extractRawText : bytes -> outcome jsstring;
  (** [zip.loadAsync] succeeds and [zip.file('word/document.xml')] is
      there *)
  hasWordDocument : bytes -> bool;
  (** [new DOMParser().parseFromString(text, 'text/html')] and the reads
      on the document *)
  parseHtml : jsstring -> outcome HtmlDocument;
  (** [Papa.parse(file, { header: true, skipEmptyLines: true, ... })] *)
  papaParse : File -> PapaOutcome;
  (** [JSON.parse]; [None] is the [SyntaxError] it throws *)
  JSON_parse : jsstring -> option json
}.

(** ** The PDF engine: [extractTextFromPdf], [extractBasicTextFromPdf] *)

Module PdfUtils.

(** A matcher with one capture: the length of the match and the group. *)
Definition capture : Type := jsstring -> option (nat * jsstring).

(** [while ((match = marker.exec(pdfData)) !== null)] for a [g]
    expression: the groups of the successive matches. *)
Fixpoint execLoop (m : capture) (skip : nat) (s : jsstring) : list jsstring :=
  match s with
  | [] => []
  | _ :: s' =>
      match skip with
      | S k => execLoop m k s'
      | O =>
          match m s with
          | Some (S k, group) => group :: execLoop m k s'
          | _ => execLoop m 0 s'
          end
      end
  end.

Definition execAll (m : capture) (s : jsstring) : list jsstring :=
  execLoop m 0 s.

Definition followedBy (c : N) (s : jsstring) : bool :=
  match s with
  | d :: _ => (c =? d)%N
  | [] => false
  end.

(** [/\(([^\)]{3,})\)/g] *)
Definition reParenText : capture := fun s =>
  match s with
  | 40%N :: rest =>
      let inner := takeWhile (fun c => negb (c =? 41)%N) rest in
      if (3 <=? length inner) && followedBy 41 (skipn (length inner) rest)
      then Some (length inner + 2, inner)
      else None
  | _ => None
  end.

(** [/\<([0-9A-F]{6,})\>/g] *)
Definition reHexText : capture := fun s =>
  match s with
  | 60%N :: rest =>
      let digits := takeWhile isUpperHex rest in
      if (6 <=? length digits) && followedBy 62 (skipn (length digits) rest)
      then Some (length digits + 2, digits)
      else None
  | _ => None
  end.

(** [/[A-Za-z]{3,}[\s][A-Za-z]{3,}/g]; the group is the whole match. *)
Definition reWordPair : capture := fun s =>
  let first := takeWhile isLetter s in
  match skipn (length first) s with
  | c :: rest =>
      let second := takeWhile isLetter rest in
      if (3 <=? length first) && isSpace c && (3 <=? length second)
      then Some (length first + 1 + length second, first ++ c :: second)
      else None
  | [] => None
  end.

(** [/[a-zA-Z]{3,}/.test(text)] *)
Fixpoint hasLetterRun (text : jsstring) : bool :=
  match text with
  | a :: ((b :: c :: _) as rest) =>
      isLetter a && isLetter b && isLetter c || hasLetterRun rest
  | _ => false
  end.

(** [/^[0-9\s\-\.]+$/.test(text)] *)
Definition numbersOnly (text : jsstring) : bool :=
  (0 <? length text)
  && forallb (fun c => isDigit c || isSpace c || (c =? 45)%N || (c =? 46)%N) text.

(** The test on a parenthesised run. *)
Definition looksLikeText (text : jsstring) : bool :=
  (includes text (str " ") || hasLetterRun text) && negb (numbersOnly text).

(** [parseInt(hexPair, 16)] on two digits of [[0-9A-F]]. *)
Definition hexValue (c : N) : N :=
  if inRange 48 57 c then (c - 48)%N else (c - 55)%N.

(** The loop over the pairs of hex digits: a trailing single digit is
    skipped, and only printable ASCII is kept. *)
Fixpoint decodeHex (hexString : jsstring) : jsstring :=
  match hexString with
  | a :: b :: rest =>
      let charCode := (16 * hexValue a + hexValue b)%N in
      (if (32 <=? charCode)%N && (charCode <=? 126)%N then [charCode] else [])
      ++ decodeHex rest
  | _ => []
  end.

(** [/\r\n|\r|\n\n+/g] *)
Definition reLineBreaks : matcher := fun _ s =>
  match s with
  | 13%N :: 10%N :: _ => Some 2
  | 13%N :: _ => Some 1
  | 10%N :: 10%N :: rest => Some (2 + length (takeWhile isNewline rest))
  | _ => None
  end.

(** The index after the last newline of [run], if it has one. *)
Fixpoint afterLastNewline (run : jsstring) : option nat :=
  match run with
  | [] => None
  | c :: rest =>
      match afterLastNewline rest with
      | Some k => Some (S k)
      | None => if isNewline c then Some 1 else None
      end
  end.

(** [/\n\s*\n/g]: the greedy [\s*] gives back up to the last newline of
    the run of white space. *)
Definition reBlankGap : matcher := fun _ s =>
  match s with
  | c :: rest =>
      if isNewline c then
        match afterLastNewline (takeWhile isSpace rest) with
        | Some k => Some (S k)
        | None => None
        end
      else None
  | [] => None
  end.

Section Engine.

Variable P : Platform.

Definition extractBasicTextFromPdf (arrayBuffer : bytes) : outcome jsstring :=
  tryCatch
    (pdfData <- decode P arrayBuffer ;;
     let fromParens :=
       flat_map (fun text => if looksLikeText text then text ++ str " " else [])
                (execAll reParenText pdfData) in
     let fromHex :=
       flat_map (fun hexString =>
                   let decoded := decodeHex hexString in
                   if (3 <=? length decoded) && existsb isLetter decoded
                   then decoded ++ str " " else [])
                (execAll reHexText pdfData) in
     let extractedText :=
       trim (replaceAll reSpaces (str " ")
               (replaceAll reLineBreaks nl (fromParens ++ fromHex))) in
     if 0 <? length extractedText then Ok extractedText
     else
       let words := execAll reWordPair pdfData in
       if 0 <? length words then Ok (join (str " ") words)
       else Ok (str "No readable text content could be extracted from this PDF."))
    (fun message =>
       Ok (str "Failed to extract text from PDF using basic methods: " ++ message)).

Definition metadataHeader (d : PdfDocument) : jsstring :=
  match metadata d with
  | Some info =>
      str "Document Title: " ++ orElse (Title info) (str "Unknown") ++ nl
      ++ str "Document Author: " ++ orElse (Author info) (str "Unknown") ++ nl
      ++ str "Pages: " ++ decimal (numPages d) ++ nl ++ nl
  | None => []
  end.

Definition pagePlaceholder (pageNum : nat) : jsstring :=
  str "[Error extracting text from page " ++ decimal pageNum ++ str "]"
  ++ nl ++ nl.

Definition pageRecovered (pageNum : nat) (simplePageText : jsstring) : jsstring :=
  str "[Recovered text from page " ++ decimal pageNum ++ str "]" ++ nl
  ++ simplePageText ++ nl ++ nl.

(** One turn of the loop over the pages: what it appends. *)
Definition pageStep (total pageNum : nat) (page : PdfPage)
    (extractedText : jsstring) : jsstring :=
  match textContent page with
  | Ok items =>
      let pageText := join (str " ") items in
      let marked :=
        if 1 <? total
        then extractedText ++ str "[Page " ++ decimal pageNum ++ str "]" ++ nl
        else extractedText in
      marked ++ pageText ++ nl ++ nl
  | Throw _ =>
      let noted := extractedText ++ pagePlaceholder pageNum in
      match simpleTextContent page with
      | Ok items =>
          let simplePageText := join (str " ") items in
          if 20 <? length simplePageText
          then noted ++ pageRecovered pageNum simplePageText
          else noted
      | Throw _ => noted
      end
  end.

(** [for (let pageNum = 1; pageNum <= numPages; pageNum++)] over the
    pages still to read. *)
Fixpoint pageLoop (total pageNum : nat) (rest : list PdfPage)
    (extractedText : jsstring) : jsstring :=
  match rest with
  | [] => extractedText
  | page :: rest' =>
      pageLoop total (S pageNum) rest' (pageStep total pageNum page extractedText)
  end.

Definition scannedMessage (total : nat) : jsstring :=
  str "This appears to be a scanned PDF without embedded text content or a PDF with complex security settings. The document contains "
  ++ decimal total ++ str " page(s) but no extractable text was found."
  ++ nl ++ nl ++ str "Options:" ++ nl
  ++ str "1. Try using OCR software to extract text" ++ nl
  ++ str "2. Copy and paste content manually if possible" ++ nl
  ++ str "3. Try a different file format".

Definition fallbackNote : jsstring :=
  nl ++ nl
  ++ str "[Note: Text extracted using fallback method due to error with main PDF processor]".

Definition failureMessage (message : jsstring) : jsstring :=
  str "Unable to extract text from this PDF document. Error: " ++ message
  ++ nl ++ nl ++ str "This may be because:" ++ nl
  ++ str "- The PDF contains scanned images without OCR text" ++ nl
  ++ str "- The PDF has security restrictions preventing text extraction" ++ nl
  ++ str "- The PDF uses uncommon font encodings" ++ nl ++ nl
  ++ str "Please try a different file format or copy the text manually.".

(** The clean-up of the text read from the pages. *)
Definition cleanUp (extractedText : jsstring) : jsstring :=
  trim (replaceAll reBlankGap (nl ++ nl)
          (replaceAll reSpaces (str " ") extractedText)).

Definition extractTextFromPdf (arrayBuffer : bytes) : outcome jsstring :=
  tryCatch
    (pdfDocument <- getDocument P arrayBuffer ;;
     let total := numPages pdfDocument in
     let extractedText :=
       pageLoop total 1 (pages pdfDocument) (metadataHeader pdfDocument) in
     if length (trim extractedText) <? 50 then
       basicText <- extractBasicTextFromPdf arrayBuffer ;;
       if 100 <? length (trim basicText) then Ok basicText
       else if length (trim extractedText) <? 100
            then Ok (scannedMessage total)
            else Ok (cleanUp extractedText)
     else Ok (cleanUp extractedText))
    (fun message =>
       match
         tryCatch
           (basicExtractedText <- extractBasicTextFromPdf arrayBuffer ;;
            if 50 <? length (trim basicExtractedText)
            then Ok (Some (basicExtractedText ++ fallbackNote))
            else Ok None)
           (fun _ => Ok None)
       with
       | Ok (Some recovered) => Ok recovered
       | _ => Ok (failureMessage message)
       end).

End Engine.

End PdfUtils.

(** ** The PDF engine, with promises that may never settle

    pdf.js hands out promises.  [extractTextFromPdf] races two of them
    against a timer: the loading of the document (fifteen seconds) and
    the first read of a page (five seconds).  The others it awaits bare:
    [getMetadata], [getPage] both times, and the second read of a page.
    [PdfUtils] takes these to settle.  Here they may stay pending: the
    loop over the pages and the engine are embedded once more, with the
    same texts, over documents whose promises may never settle. *)

Module PdfPromises.

Inductive awaited (A : Type) : Type :=
| Settled (result : outcome A)
| Pending.

Arguments Settled {A} result.
Arguments Pending {A}.

(** A page, through its two reads.  [getTextContent] is [getPage],
    awaited bare, then [getTextContent()] raced against the five-second
    timer: it is pending only when [getPage] is.  [getSimpleTextContent]
    is the second [getPage], [getViewport] and [getTextContent({
    disableCombineTextItems: true })], each awaited bare.  A read that
    settles answers the [str] of the text items, or throws. *)
Record Page : Type := {
  getTextContent : awaited (list jsstring);
  getSimpleTextContent : awaited (list jsstring)
}.

(** [getMetadata] answers [metadata.info], when there is one; [getPage]
    lists the pages, [getPage(1)] first. *)
Record Document : Type := {
  getMetadata : awaited (option PdfInfo);
  getPage : list Page
}.

(** A page and a document of [PdfUtils], all of whose promises settle. *)
Definition settled (page : PdfPage) : Page :=
  {| getTextContent := Settled (textContent page);
     getSimpleTextContent := Settled (simpleTextContent page) |}.

Definition settledDocument (d : PdfDocument) : Document :=
  {| getMetadata := Settled (Ok (metadata d));
     getPage := map settled (pages d) |}.

Definition settledLoad (P : Platform) (arrayBuffer : bytes) : outcome Document :=
  d <- getDocument P arrayBuffer ;; Ok (settledDocument d).

Section Engine.

Variable P : Platform.

(** [pdfjs.getDocument({ data: arrayBuffer }).promise] raced against the
    fifteen-second timer. *)
Variable loadDocument : bytes -> outcome Document.

(** The header, or [None] when [getMetadata] never settles. *)
Definition metadataHeader (d : Document) : option jsstring :=
  match getMetadata d with
  | Settled (Ok (Some info)) =>
      Some (str "Document Title: " ++ orElse (Title info) (str "Unknown") ++ nl
            ++ str "Document Author: " ++ orElse (Author info) (str "Unknown") ++ nl
            ++ str "Pages: " ++ decimal (length (getPage d)) ++ nl ++ nl)
  | Settled _ => Some []
  | Pending => None
  end.

(** One turn of the loop over the pages: what it appends, or [None] when
    an await of the turn never settles, and the loop with it. *)
Definition pageStep (total pageNum : nat) (page : Page)
    (extractedText : jsstring) : option jsstring :=
  match getTextContent page with
  | Settled (Ok items) =>
      let pageText := join (str " ") items in
      let marked :=
        if 1 <? total
        then extractedText ++ str "[Page " ++ decimal pageNum ++ str "]" ++ nl
        else extractedText in
      Some (marked ++ pageText ++ nl ++ nl)
  | Settled (Throw _) =>
      let noted := extractedText ++ PdfUtils.pagePlaceholder pageNum in
      match getSimpleTextContent page with
      | Settled (Ok items) =>
          let simplePageText := join (str " ") items in
          Some (if 20 <? length simplePageText
                then noted ++ PdfUtils.pageRecovered pageNum simplePageText
                else noted)
      | Settled (Throw _) => Some noted
      | Pending => None
      end
  | Pending => None
  end.

Fixpoint pageLoop (total pageNum : nat) (rest : list Page)
    (extractedText : jsstring) : option jsstring :=
  match rest with
  | [] => Some extractedText
  | page :: rest' =>
      match pageStep total pageNum page extractedText with
      | Some extractedText' => pageLoop total (S pageNum) rest' extractedText'
      | None => None
      end
  end.

(** The [catch] of [extractTextFromPdf]. *)
Definition recover (arrayBuffer : bytes) (message : jsstring) : outcome jsstring :=
  match
    tryCatch
      (basicExtractedText <- PdfUtils.extractBasicTextFromPdf P arrayBuffer ;;
       if 50 <? length (trim basicExtractedText)
       then Ok (Some (basicExtractedText ++ PdfUtils.fallbackNote))
       else Ok None)
      (fun _ => Ok None)
  with
  | Ok (Some recovered) => Ok recovered
  | _ => Ok (PdfUtils.failureMessage message)
  end.

(** What follows the loop: the test on the text gathered, and the
    clean-up. *)
Definition qualityGate (arrayBuffer : bytes) (total : nat)
    (extractedText : jsstring) : outcome jsstring :=
  if length (trim extractedText) <? 50 then
    basicText <- PdfUtils.extractBasicTextFromPdf P arrayBuffer ;;
    if 100 <? length (trim basicText) then Ok basicText
    else if length (trim extractedText) <? 100
         then Ok (PdfUtils.scannedMessage total)
         else Ok (PdfUtils.cleanUp extractedText)
  else Ok (PdfUtils.cleanUp extractedText).

(** [Pending] is the call that never returns: no [catch] and no timer
    ends an await that does not settle. *)
Definition extractTextFromPdf (arrayBuffer : bytes) : awaited jsstring :=
  match loadDocument arrayBuffer with
  | Throw message => Settled (recover arrayBuffer message)
  | Ok pdfDocument =>
      let total := length (getPage pdfDocument) in
      match metadataHeader pdfDocument with
      | None => Pending
      | Some header =>
          match pageLoop total 1 (getPage pdfDocument) header with
          | None => Pending
          | Some extractedText =>
              Settled (tryCatch (qualityGate arrayBuffer total extractedText)
                         (recover arrayBuffer))
          end
      end
  end.

End Engine.

End PdfPromises.

(** ** The format dispatcher and the extractors: [extractTextFromFile] *)

Module FileProcessors.

(** Maximum file size in bytes (50MB). *)
Definition MAX_FILE_SIZE : N := 50 * 1024 * 1024.

Record Extraction : Type := {
  text : jsstring;
  type : jsstring;
  fileName : jsstring
}.

(** The families of the dispatch table, in its order. *)
Inductive family : Type :=
| PdfFile | DocxFile | DocFile | PlainTextFile | HtmlFile | CsvFile
| SpreadsheetFile | JsonFile | Unmatched.

(** *** [JSON.stringify] and [String] on parsed JSON *)

Definition quoteMark : jsstring := [34%N].

Definition hexDigit (d : N) : N :=
  if (d <? 10)%N then (48 + d)%N else (87 + d)%N.

Definition unicodeEscape (c : N) : jsstring :=
  str "\u" ++ [hexDigit (c / 4096); hexDigit ((c / 256) mod 16);
               hexDigit ((c / 16) mod 16); hexDigit (c mod 16)]%N.

Definition isLeadSurrogate (c : N) : bool := inRange 55296 56319 c.
Definition isTrailSurrogate (c : N) : bool := inRange 56320 57343 c.

Definition escapeUnit (c : N) : jsstring :=
  if (c =? 8)%N then str "\b"
  else if (c =? 9)%N then str "\t"
  else if (c =? 10)%N then str "\n"
  else if (c =? 12)%N then str "\f"
  else if (c =? 13)%N then str "\r"
  else if (c =? 34)%N then 92%N :: quoteMark
  else if (c =? 92)%N then str "\\"
  else if (c <? 32)%N || isTrailSurrogate c then unicodeEscape c
  else [c].

Fixpoint quoteChars (s : jsstring) : jsstring :=
  match s with
  | [] => []
  | c :: rest =>
      if isLeadSurrogate c then
        match rest with
        | d :: rest' =>
            if isTrailSurrogate d then c :: d :: quoteChars rest'
            else unicodeEscape c ++ quoteChars rest
        | [] => unicodeEscape c
        end
      else escapeUnit c ++ quoteChars rest
  end.

Definition quote (s : jsstring) : jsstring :=
  quoteMark ++ quoteChars s ++ quoteMark.

Definition isInfinite (shown : jsstring) : bool :=
  eqb shown (str "Infinity") || eqb shown (str "-Infinity").

(** [JSON.stringify(value)] *)
Fixpoint stringify (value : json) : jsstring :=
  match value with
  | JNull => str "null"
  | JBool true => str "true"
  | JBool false => str "false"
  | JNumber shown => if isInfinite shown then str "null" else shown
  | JString s => quote s
  | JArray items => str "[" ++ join (str ",") (map stringify items) ++ str "]"
  | JObject fields =>
      str "{"
      ++ join (str ",")
           (map (fun '(key, v) => quote key ++ str ":" ++ stringify v) fields)
      ++ str "}"
  end.

(** [typeof value === 'object'], which [null] passes. *)
Definition isObjectType (value : json) : bool :=
  match value with
  | JNull | JArray _ | JObject _ => true
  | _ => false
  end.

(** [String(value)] on a primitive; an object never reaches it. *)
Definition toStringValue (value : json) : jsstring :=
  match value with
  | JNull => str "null"
  | JBool true => str "true"
  | JBool false => str "false"
  | JNumber shown => shown
  | JString s => s
  | _ => stringify value
  end.

(** [Object.entries] *)
Definition entries (value : json) : list (jsstring * json) :=
  match value with
  | JObject fields => fields
  | JArray items => combine (map decimal (seq 0 (length items))) items
  | _ => []
  end.

(** *** [extractFromJson] *)

(** One line of an expanded array item. *)
Definition itemEntry (entry : jsstring * json) : jsstring :=
  let '(key, value) := entry in
  let valueStr :=
    if isObjectType value then substring (stringify value) 0 100
    else toStringValue value in
  str "  " ++ key ++ str ": " ++ valueStr
  ++ (if 100 <? length valueStr then str "..." else []) ++ nl.

(** The body of [displayItems.forEach((item, index) => ...)]. *)
Definition renderItem (index : nat) (item : json) : jsstring :=
  str "Item " ++ decimal (index + 1) ++ str ":" ++ nl
  ++ (match item with
      | JArray _ | JObject _ => flat_map itemEntry (entries item)
      | _ => str "  " ++ toStringValue item ++ nl
      end)
  ++ nl.

Fixpoint forEachItem (index : nat) (displayItems : list json) : jsstring :=
  match displayItems with
  | [] => []
  | item :: rest => renderItem index item ++ forEachItem (S index) rest
  end.

(** One line of an object root. *)
Definition objectEntry (entry : jsstring * json) : jsstring :=
  let '(key, value) := entry in
  match value with
  | JArray _ | JObject _ =>
      key ++ str ": " ++ substring (stringify value) 0 100
      ++ (if 100 <? length (stringify value) then str "..." else []) ++ nl
  | _ => key ++ str ": " ++ toStringValue value ++ nl
  end.

Definition formatJson (data : json) : jsstring :=
  match data with
  | JArray items =>
      str "JSON Array with " ++ decimal (length items) ++ str " items:" ++ nl ++ nl
      ++ forEachItem 0 (firstn 5 items)
      ++ (if 5 <? length items
          then str "... and " ++ decimal (length items - 5) ++ str " more items" ++ nl
          else [])
  | JObject fields =>
      str "JSON Object:" ++ nl ++ nl ++ flat_map objectEntry fields
  | _ => str "JSON Content: " ++ stringify data
  end.

(** *** [extractFromCsv]: the report built in [complete] *)

Definition csvRow (index : nat) (row : list (jsstring * jsstring)) : jsstring :=
  str "Row " ++ decimal (index + 1) ++ str ":" ++ nl
  ++ flat_map (fun '(key, value) => str "  " ++ key ++ str ": " ++ value ++ nl) row
  ++ nl.

Fixpoint forEachRow (index : nat) (displayRows : list (list (jsstring * jsstring)))
    : jsstring :=
  match displayRows with
  | [] => []
  | row :: rest => csvRow index row ++ forEachRow (S index) rest
  end.

Definition formatCsv (results : PapaResults) : jsstring :=
  (match fields results with
   | [] => []
   | _ => str "Headers: " ++ join (str ", ") (fields results) ++ nl ++ nl
   end)
  ++ (if 0 <? length (data results) then
        decimal (length (data results)) ++ str " records found in CSV file:"
        ++ nl ++ nl
        ++ forEachRow 0 (firstn 10 (data results))
        ++ (if 10 <? length (data results)
            then str "... and " ++ decimal (length (data results) - 10)
                 ++ str " more rows" ++ nl
            else [])
      else str "No data rows found in CSV file.").

(** [fileName.split('.')] *)
Definition reDot : matcher := fun _ s =>
  match s with
  | 46%N :: _ => Some 1
  | _ => None
  end.

Section Dispatcher.

Variable P : Platform.

Definition extractFromDocx (file : File) : outcome (jsstring * jsstring) :=
  tryCatch
    (arrayBuffer <- file_arrayBuffer file ;;
     value <- extractRawText P arrayBuffer ;;
     Ok (value, str "DOCX"))
    (fun _ =>
       Throw (str "Failed to extract text from DOCX file. The file may be corrupted or incompatible.")).

(** The two single-character replacements of [extractFromDoc]. *)
Definition isBinaryArtifact (c : N) : bool :=
  inRange 0 8 c || (c =? 11)%N || (c =? 12)%N || inRange 14 31 c
  || inRange 127 255 c.

Definition isPlainChar (c : N) : bool :=
  inRange 32 126 c || (c =? 9)%N || (c =? 13)%N || (c =? 10)%N.

Definition extractFromDoc (file : File) : outcome jsstring :=
  tryCatch
    (arrayBuffer <- file_arrayBuffer file ;;
     let renamedDocx :=
       if hasWordDocument P arrayBuffer then
         match extractRawText P arrayBuffer with
         | Ok value =>
             Some (orElse value
                     (str "Document appears to be a DOCX file with DOC extension. Limited text could be extracted."))
         | Throw _ => None
         end
       else None in
     match renamedDocx with
     | Some answer => Ok answer
     | None =>
         text <- decode P arrayBuffer ;;
         let cleanedText :=
           trim (replaceAll reSpaces (str " ")
                   (map (fun c => if isPlainChar c then c else 32%N)
                      (filter (fun c => negb (isBinaryArtifact c)) text))) in
         Ok (orElse cleanedText
               (str "Limited text could be extracted from this DOC file. Consider converting to DOCX for better results."))
     end)
    (fun _ =>
       Ok (str "Could not extract text from DOC file. Consider converting to DOCX for better results.")).

Definition extractFromHtml (file : File) : outcome (jsstring * jsstring) :=
  tryCatch
    (text <- file_text file ;;
     let extractedText :=
       match parseHtml P text with
       | Ok doc =>
           let body :=
             trim (replaceAll reSpaces (str " ") (orElse (htmlTextContent doc) text)) in
           let titled :=
             match htmlTitle doc with
             | [] => body
             | title => str "Title: " ++ title ++ nl ++ nl ++ body
             end in
           match htmlDescription doc with
           | Some ((_ :: _) as content) =>
               titled ++ nl ++ nl ++ str "Description: " ++ content
           | _ => titled
           end
       | Throw _ => text
       end in
     Ok (extractedText, str "HTML"))
    (fun _ => Throw (str "Failed to extract text from HTML file.")).

Definition extractFromCsv (file : File) : outcome (jsstring * jsstring) :=
  match papaParse P file with
  | PapaComplete results => Ok (formatCsv results, str "CSV")
  | PapaError message => Throw (str "Failed to parse CSV file: " ++ message)
  end.

Definition extractFromJson (file : File) : outcome jsstring :=
  match file_text file with
  | Ok text =>
      match JSON_parse P text with
      | Some data => Ok (formatJson data)
      | None =>
          Ok (str "The JSON file contains syntax errors and could not be parsed.")
      end
  | Throw _ => Ok (str "Failed to process JSON file.")
  end.

Definition pdfLimitedMessage (name : jsstring) : jsstring :=
  str "The PDF '" ++ name ++ str "' couldn't be fully processed." ++ nl ++ nl
  ++ str "Unable to extract meaningful text content from this PDF. It may be:" ++ nl
  ++ str "- A scanned document without embedded text (OCR not applied)" ++ nl
  ++ str "- An image-based PDF" ++ nl
  ++ str "- A PDF with complex formatting or security settings" ++ nl ++ nl
  ++ str "Alternatives:" ++ nl
  ++ str "1. Try using OCR software to convert it to a text-based PDF" ++ nl
  ++ str "2. Copy and paste the text directly into the text area" ++ nl
  ++ str "3. Try a different PDF file" ++ nl ++ nl
  ++ str "For the best experience, please provide a searchable PDF file or text content directly.".

Definition pdfErrorMessage (name message : jsstring) : jsstring :=
  str "There was an error processing the PDF file '" ++ name ++ str "'."
  ++ nl ++ nl ++ str "Error details: " ++ message ++ nl ++ nl
  ++ str "Please try with a different file or copy and paste the text directly.".

Definition extractPdf (file : File) : outcome Extraction :=
  tryCatch
    (arrayBuffer <- file_arrayBuffer file ;;
     extractedText <- PdfUtils.extractTextFromPdf P arrayBuffer ;;
     if 50 <? length (trim extractedText) then
       Ok {| text := extractedText; type := str "PDF"; fileName := file_name file |}
     else
       Ok {| text := pdfLimitedMessage (file_name file);
             type := str "PDF (Limited Extraction)";
             fileName := file_name file |})
    (fun message =>
       Ok {| text := pdfErrorMessage (file_name file) message;
             type := str "PDF (Error)";
             fileName := file_name file |}).

(** [fileType || fileExtension.toUpperCase() || 'Unknown'] *)
Definition typeLabel (fileType fileExtension : jsstring) : jsstring :=
  orElse fileType (orElse (toUpperCase P fileExtension) (str "Unknown")).

(** The [catch] of [extractTextFromFile]: every branch throws. *)
Definition rethrow (file : File) (fileType fileExtension message : jsstring)
    : outcome Extraction :=
  if includes message (str "Unsupported file type") then
    Throw (str "Unsupported file type: " ++ typeLabel fileType fileExtension
           ++ str ". Please try with DOCX, TXT, HTML, or CSV files.")
  else if includes message (str "password") then
    Throw (str "The file '" ++ file_name file
           ++ str "' appears to be password protected. Please remove the password protection and try again.")
  else if includes message (str "corrupt") || includes message (str "invalid") then
    Throw (str "The file '" ++ file_name file
           ++ str "' appears to be corrupted or invalid. Please check the file and try again.")
  else if includes message (str "size") then
    Throw (str "The file '" ++ file_name file
           ++ str "' is too large to process. Please try with a smaller file (under 50MB).")
  else
    Throw (str "Failed to process "
           ++ orElse (toUpperCase P fileExtension) (str "unknown")
           ++ str " file: " ++ orElse message (str "Unknown error")).

(** The body of the [try] of [extractTextFromFile]: the chain of [if]s
    on the MIME type and the extension, first match first, then what each
    one runs. *)
Definition familyOf (fileType fileExtension : jsstring) : family :=
  let ext := eqb fileExtension in
  let mime := eqb fileType in
  if mime (str "application/pdf") || ext (str "pdf") then PdfFile
  else if mime (str "application/vnd.openxmlformats-officedocument.wordprocessingml.document")
          || ext (str "docx") then DocxFile
  else if mime (str "application/msword") || ext (str "doc") then DocFile
  else if mime (str "text/plain") || ext (str "txt") || ext (str "md")
          || ext (str "rtf") then PlainTextFile
  else if mime (str "text/html") || ext (str "html") || ext (str "htm") then HtmlFile
  else if mime (str "text/csv") || ext (str "csv") then CsvFile
  else if mime (str "application/vnd.openxmlformats-officedocument.spreadsheetml.sheet")
          || mime (str "application/vnd.ms-excel")
          || ext (str "xlsx") || ext (str "xls") then SpreadsheetFile
  else if mime (str "application/json") || ext (str "json") then JsonFile
  else Unmatched.

Definition dispatch (file : File) (fileType fileExtension : jsstring)
    : outcome Extraction :=
  match familyOf fileType fileExtension with
  | PdfFile => extractPdf file
  | DocxFile =>
      r <- extractFromDocx file ;;
      Ok {| text := fst r; type := snd r; fileName := file_name file |}
  | DocFile =>
      t <- extractFromDoc file ;;
      Ok {| text := t; type := str "DOC"; fileName := file_name file |}
  | PlainTextFile =>
      t <- file_text file ;;
      Ok {| text := t;
            type := orElse (toUpperCase P fileExtension) (str "TXT");
            fileName := file_name file |}
  | HtmlFile =>
      r <- extractFromHtml file ;;
      Ok {| text := fst r; type := snd r; fileName := file_name file |}
  | CsvFile =>
      r <- extractFromCsv file ;;
      Ok {| text := fst r; type := snd r; fileName := file_name file |}
  | SpreadsheetFile =>
      t <- extractFromDoc file ;;
      Ok {| text :=
              str "Excel files are currently converted to text. For best results with spreadsheets, consider exporting to CSV first."
              ++ nl ++ nl ++ t;
            type := toUpperCase P fileExtension;
            fileName := file_name file |}
  | JsonFile =>
      t <- extractFromJson file ;;
      Ok {| text := t; type := str "JSON"; fileName := file_name file |}
  | Unmatched =>
      let unsupported :=
        Throw (str "Unsupported file type: " ++ typeLabel fileType fileExtension
               ++ str "." ++ nl
               ++ str "Please try with DOCX, TXT, HTML, or CSV files.") in
      if eqb fileType [] || startsWith (str "text/") fileType then
        match file_text file with
        | Ok content =>
            if 0 <? length (trim content)
            then Ok {| text := content; type := str "TEXT";
                       fileName := file_name file |}
            else unsupported
        | Throw _ => unsupported
        end
      else unsupported
  end.

(** [fileName.split('.').pop() || ''] on the lower-cased name. *)
Definition extensionOf (file : File) : jsstring :=
  last (split reDot (toLowerCase P (file_name file))) [].

(** A structured format whose parser rejects the file: a DOCX whose read
    or whose mammoth extraction throws, a CSV on which PapaParse calls
    [error], a JSON text on which [JSON.parse] throws. *)
Definition parserRejects (file : File) : bool :=
  match familyOf (file_type file) (extensionOf file) with
  | DocxFile =>
      match (arrayBuffer <- file_arrayBuffer file ;;
             extractRawText P arrayBuffer) with
      | Throw _ => true
      | Ok _ => false
      end
  | CsvFile =>
      match papaParse P file with
      | PapaError _ => true
      | PapaComplete _ => false
      end
  | JsonFile =>
      match file_text file with
      | Ok text =>
          match JSON_parse P text with
          | None => true
          | Some _ => false
          end
      | Throw _ => false
      end
  | _ => false
  end.

Definition sizeMessage : jsstring :=
  str "File size exceeds maximum allowed size ("
  ++ decimal (N.to_nat (MAX_FILE_SIZE / (1024 * 1024))) ++ str "MB)".

Definition extractTextFromFile (file : File) : outcome Extraction :=
  if (MAX_FILE_SIZE <? file_size file)%N then Throw sizeMessage
  else
    let fileType := file_type file in
    let fileExtension := extensionOf file in
    tryCatch (dispatch file fileType fileExtension)
             (rethrow file fileType fileExtension).

End Dispatcher.

End FileProcessors.

(** ** Sample inputs *)

Module Samples.

Import PdfUtils FileProcessors.

(** A paragraph of nine characters, a blank line, and one more. *)
Definition nineThenOne : jsstring :=
  str "aaa bbb c" ++ nl ++ nl ++ str "d".

Definition threeSentences : jsstring :=
  str "One two. Three four five! Sixseveneightnine?" ++ nl ++ nl ++ nl
  ++ str "Ten.".


(** Case conversion and decoding on ASCII, where they agree with the
    browser's. *)
Definition asciiLower (s : jsstring) : jsstring :=
  map (fun c => if inRange 65 90 c then (c + 32)%N else c) s.

Definition asciiUpper (s : jsstring) : jsstring :=
  map (fun c => if inRange 97 122 c then (c - 32)%N else c) s.

Definition asciiDecode (b : bytes) : outcome jsstring :=
  Ok (map Byte.to_N b).

(** A platform for the examples: pdf.js answers [loaded] for every
    buffer, mammoth and PapaParse fail, and [JSON.parse] reads the one
    document [parsed] (printed by [stringify]) and rejects other text. *)
Definition samplePlatform (loaded : outcome PdfDocument) (parsed : json)
    : Platform :=
  {| toLowerCase := asciiLower;
     toUpperCase := asciiUpper;
     getDocument := fun _ => loaded;
     decode := asciiDecode;
     extractRawText := fun _ =>
       Throw (str "Can't find end of central directory : is this a zip file ?");
     hasWordDocument := fun _ => false;
     parseHtml := fun t =>
       Ok {| htmlTextContent := t; htmlTitle := []; htmlDescription := None |};
     papaParse := fun _ => PapaError (str "File could not be read");
     JSON_parse := fun t => if eqb t (stringify parsed) then Some parsed else None |}.

Definition brokenLoad : outcome PdfDocument :=
  Throw (str "Invalid PDF structure").

(** A buffer that is no PDF for pdf.js but carries one text run. *)
Definition textRunBuffer : bytes :=
  list_byte_of_string
    "%PDF-1.4 BT (The quick brown fox jumps over the lazy dog and keeps running through the quiet fields until the evening comes) Tj ET".




(** Seven objects; the first holds a nested array whose serialization
    is 121 characters long. *)
Definition nestedObject : list (jsstring * json) :=
  [(str "id", JNumber (str "1"));
   (str "tags", JArray (repeat (JString (str "x")) 30))].

Definition plainObject (id : string) : list (jsstring * json) :=
  [(str "id", JNumber (str id)); (str "tags", JArray [JString (str "x")])].

Definition sevenItems : json :=
  JArray (map JObject
            [nestedObject; plainObject "2"; plainObject "3"; plainObject "4";
             plainObject "5"; plainObject "6"; plainObject "7"]).

Definition examplePlatform : Platform := samplePlatform brokenLoad sevenItems.


(** A JSON file cut short. *)
Definition brokenJsonFile : File :=
  {| file_name := str "data.json";
     file_type := str "application/json";
     file_size := 1;
     file_arrayBuffer := Ok [];
     file_text := Ok (str "{") |}.

Definition brokenDocxFile : File :=
  {| file_name := str "Report.DOCX";
     file_type := [];
     file_size := 4;
     file_arrayBuffer := Ok (list_byte_of_string "oops");
     file_text := Ok (str "oops") |}.

(** A text file one byte over the limit. *)
Definition oversizeFile : File :=
  {| file_name := str "big.txt";
     file_type := str "text/plain";
     file_size := 52428801;
     file_arrayBuffer := Ok [];
     file_text := Ok (str "hello") |}.

Definition smallFile : File :=
  {| file_name := str "note.txt";
     file_type := str "text/plain";
     file_size := 5;
     file_arrayBuffer := Ok [];
     file_text := Ok (str "hello") |}.

End Samples.

(** ** The history and preferences store: [localStorage.ts] *)

Module LocalStorage.

Record SummaryHistoryItem : Type := {
  id : jsstring;
  date : jsstring;
  sourceLanguage : jsstring;
  targetLanguage : jsstring;
  summaryLength : jsstring;
  contentPreview : jsstring;
  summary : jsstring;
  sourceType : option jsstring;
  fileName : option jsstring
}.

Record UserPreferences : Type := {
  defaultTargetLanguage : jsstring;
  defaultSummaryLength : jsstring;
  darkMode : bool
}.

(** What [localStorage.getItem(key)] followed by [JSON.parse] makes of a
    key: nothing stored ([null] or the empty string), a read or a parse
    that throws, or the value that was written.  [JSON.parse] gives back
    what [JSON.stringify] was given, for these records of strings and
    booleans. *)
Inductive slot (A : Type) : Type :=
| Absent
| Garbled
| Holds (value : A).

Arguments Absent {A}.
Arguments Garbled {A}.
Arguments Holds {A} value.

(** The browser side: whether there is a [window], the error
    [localStorage.setItem] throws if it does (a full or disabled store),
    and the two keys [summary_history] and [user_preferences]. *)
Record Browser : Type := {
  hasWindow : bool;
  writeError : option jsstring;
  historySlot : slot (list SummaryHistoryItem);
  preferencesSlot : slot UserPreferences
}.

(** [localStorage.setItem(HISTORY_KEY, JSON.stringify(history))] *)
Definition setHistory (b : Browser) (history : list SummaryHistoryItem)
    : outcome Browser :=
  match writeError b with
  | Some message => Throw message
  | None =>
      Ok {| hasWindow := hasWindow b; writeError := writeError b;
            historySlot := Holds history;
            preferencesSlot := preferencesSlot b |}
  end.

(** [localStorage.setItem(PREFERENCES_KEY, JSON.stringify(preferences))] *)
Definition setPreferences (b : Browser) (preferences : UserPreferences)
    : outcome Browser :=
  match writeError b with
  | Some message => Throw message
  | None =>
      Ok {| hasWindow := hasWindow b; writeError := writeError b;
            historySlot := historySlot b;
            preferencesSlot := Holds preferences |}
  end.

Definition getSummaryHistory (b : Browser) : list SummaryHistoryItem :=
  if negb (hasWindow b) then []
  else
    match historySlot b with
    | Holds history => history
    | Absent | Garbled => []
    end.

(** [{ ...item, id, date }] *)
Definition stamp (item : SummaryHistoryItem) (newId now : jsstring)
    : SummaryHistoryItem :=
  {| id := newId; date := now;
     sourceLanguage := sourceLanguage item;
     targetLanguage := targetLanguage item;
     summaryLength := summaryLength item;
     contentPreview := contentPreview item;
     summary := summary item;
     sourceType := sourceType item;
     fileName := fileName item |}.

(** [item] stands for the [Omit<SummaryHistoryItem, 'id' | 'date'>] of the
    source: its [id] and [date] are not read.  [newId] is what
    [generateId()] answers and [now] what [new Date().toISOString()]
    answers.  The result is the item returned and the browser after. *)
Definition saveSummaryToHistory (b : Browser) (item : SummaryHistoryItem)
    (newId now : jsstring) : outcome (SummaryHistoryItem * Browser) :=
  if negb (hasWindow b) then Ok (stamp item (str "server-side") now, b)
  else
    let history := getSummaryHistory b in
    let newItem := stamp item newId now in
    let updatedHistory := firstn 20 (newItem :: history) in
    b' <- setHistory b updatedHistory ;;
    Ok (newItem, b').

Definition deleteSummaryFromHistory (b : Browser) (id_ : jsstring)
    : outcome (bool * Browser) :=
  if negb (hasWindow b) then Ok (false, b)
  else
    let history := getSummaryHistory b in
    let updatedHistory :=
      filter (fun item => negb (eqb (id item) id_)) history in
    if negb (length updatedHistory =? length history) then
      b' <- setHistory b updatedHistory ;;
      Ok (true, b')
    else Ok (false, b).

Definition defaultPreferences : UserPreferences :=
  {| defaultTargetLanguage := str "English";
     defaultSummaryLength := str "medium";
     darkMode := false |}.

Definition getUserPreferences (b : Browser) : UserPreferences :=
  if negb (hasWindow b) then defaultPreferences
  else
    match preferencesSlot b with
    | Holds preferences => preferences
    | Absent | Garbled => defaultPreferences
    end.

Definition saveUserPreferences (b : Browser) (preferences : UserPreferences)
    : outcome Browser :=
  if negb (hasWindow b) then Ok b
  else setPreferences b preferences.

End LocalStorage.

(** ** The content processor: [processContent] *)

Module ContentProcessor.

Record ProcessContentParams : Type := {
  content : jsstring;
  file : option File;
  targetLanguage : jsstring;
  summaryLength : jsstring;
  sourceLanguage : jsstring
}.

(** [fileName] is [None] for [undefined]. *)
Record Payload : Type := {
  payloadContent : jsstring;
  payloadTargetLanguage : jsstring;
  payloadSummaryLength : jsstring;
  payloadSourceLanguage : jsstring;
  payloadSourceType : jsstring;
  payloadFileName : option jsstring
}.

Record ProcessedContent : Type := {
  payload : Payload;
  detectedLanguage : jsstring;
  sourceType : jsstring;
  fileName : jsstring
}.

Definition noContentMessage : jsstring :=
  str "No content to summarize. Please enter text or upload a valid file.".

Section Processor.

Variable P : Platform.
Variable franc : option (jsstring -> outcome jsstring).

(** The text to summarize, its source type and file name: the text typed,
    or what the file gives. *)
Definition source (params : ProcessContentParams)
    : outcome (jsstring * jsstring * jsstring) :=
  match file params with
  | Some f =>
      tryCatch
        (extractedData <- FileProcessors.extractTextFromFile P f ;;
         Ok (FileProcessors.text extractedData,
             FileProcessors.type extractedData,
             FileProcessors.fileName extractedData))
        (fun message => Throw (str "Failed to process file: " ++ message))
  | None => Ok (content params, str "text", [])
  end.

Definition processContent (params : ProcessContentParams)
    : outcome ProcessedContent :=
  s <- source params ;;
  let '(processedContent, sourceType_, fileName_) := s in
  if eqb (trim processedContent) [] then Throw noContentMessage
  else
    let detectedLanguage_ :=
      if eqb (sourceLanguage params) (str "auto") then
        let textSample := slice processedContent 0 5000 in
        LanguageDetection.detectLanguage franc textSample
      else sourceLanguage params in
    Ok {| payload :=
            {| payloadContent := processedContent;
               payloadTargetLanguage := targetLanguage params;
               payloadSummaryLength := summaryLength params;
               payloadSourceLanguage := detectedLanguage_;
               payloadSourceType := sourceType_;
               payloadFileName :=
                 match fileName_ with [] => None | _ => Some fileName_ end |};
          detectedLanguage := detectedLanguage_;
          sourceType := sourceType_;
          fileName := fileName_ |}.

End Processor.

End ContentProcessor.

(** ** The upload box: [onDrop] of [FileUploader] *)

Module FileUploader.

(** What the user sees of a drop: nothing, an error toast, or the text
    handed to [onFileContent]. *)
Inductive dropResult : Type :=
| Ignored
| ToastError (message : jsstring)
| FileContent (text type : jsstring).

(** [Number.prototype.toString] on an integer. *)
Definition decimalZ (z : Z) : jsstring :=
  if (z <? 0)%Z then str "-" ++ decimal (Z.to_nat (- z))
  else decimal (Z.to_nat z).

(** [Math.round(maxSize / 1024 / 1024)]: the nearest integer, halves up. *)
Definition roundMegabytes (maxSize : Z) : Z :=
  ((2 * maxSize + 1048576) / 2097152)%Z.

(** The default of [NEXT_PUBLIC_MAX_UPLOAD_SIZE]. *)
Definition defaultMaxSize : Z := 10485760.

(** [maxSize] is what [parseInt] makes of the setting: [None] is [NaN],
    which no size exceeds.  The component's own state ([setFileName],
    [setIsProcessing]) is left out, and [onFileContent] is taken not to
    throw.  [acceptedFiles] is what [useDropzone] hands over: with
    [maxFiles: 1] and its [accept] map, no file or one file, of type PDF,
    DOCX, DOC, TXT or HTML. *)
Definition onDrop (P : Platform) (maxSize : option Z) (acceptedFiles : list File)
    : dropResult :=
  match acceptedFiles with
  | [] => Ignored
  | file :: _ =>
      let tooLarge :=
        match maxSize with
        | Some limit => (limit <? Z.of_N (file_size file))%Z
        | None => false
        end in
      if tooLarge then
        ToastError
          (str "File too large. Maximum size is "
           ++ match maxSize with
              | Some limit => decimalZ (roundMegabytes limit)
              | None => str "NaN"
              end
           ++ str "MB.")
      else
        match FileProcessors.extractTextFromFile P file with
        | Ok extracted =>
            FileContent (FileProcessors.text extracted)
                        (FileProcessors.type extracted)
        | Throw _ =>
            ToastError (str "Failed to process file. Unsupported format or corrupted file.")
        end
  end.

End FileUploader.

(** ** The summary endpoint: [handler] of [pages/api/summarize.ts] *)

Module SummarizeApi.

(** The request body, taken to be an object; a field that is missing is
    the empty string, which every test of the code treats alike. *)
Record RequestData : Type := {
  content : jsstring;
  targetLanguage : jsstring;
  summaryLength : jsstring;
  sourceLanguage : jsstring;
  sourceType : jsstring;
  fileName : jsstring
}.

(** An error as the [catch] reads it. *)
Record ApiError : Type := {
  name : jsstring;
  message : jsstring
}.

Inductive body : Type :=
| Summary (summary : jsstring)
| Error (error : jsstring).

Record Response : Type := {
  status : nat;
  json : body
}.

(** The argument of [anthropic.messages.create]. *)
Record MessageRequest : Type := {
  model : jsstring;
  max_tokens : nat;
  system : jsstring;
  userContent : jsstring
}.

Definition generatePrompt (data : RequestData) : jsstring :=
  let length_ :=
    if eqb (summaryLength data) (str "short") then str "concise, 1-2 paragraphs"
    else if eqb (summaryLength data) (str "medium") then str "balanced, 3-4 paragraphs"
    else if eqb (summaryLength data) (str "long") then str "comprehensive, 5+ paragraphs"
    else str "medium-length" in
  let sourceLanguageText :=
    if negb (eqb (sourceLanguage data) [])
       && negb (eqb (sourceLanguage data) (str "auto"))
       && negb (eqb (sourceLanguage data) (str "unknown"))
    then str "The source text is in " ++ sourceLanguage data ++ str "."
    else [] in
  let fileContext :=
    if negb (eqb (sourceType data) []) && negb (eqb (fileName data) [])
    then str "The content is from a " ++ sourceType data ++ str " file named "
         ++ [34%N] ++ fileName data ++ [34%N] ++ str "."
    else [] in
  str "You are an expert multilingual content summarizer. Your task is to create a "
  ++ length_ ++ str " summary of the provided text in " ++ targetLanguage data
  ++ str ". " ++ sourceLanguageText ++ str " " ++ fileContext ++ nl
  ++ str "  " ++ nl
  ++ str "Follow these guidelines:" ++ nl
  ++ str "1. Preserve all key information, main arguments, and important details" ++ nl
  ++ str "2. Organize the summary in a logical structure with clear paragraphs" ++ nl
  ++ str "3. Keep the writing style formal and professional" ++ nl
  ++ str "4. Ensure the summary is complete and standalone (readers shouldn't need the original text)" ++ nl
  ++ str "5. Focus on factual information rather than opinions" ++ nl
  ++ str "6. Write in " ++ targetLanguage data ++ str " regardless of the source language" ++ nl
  ++ nl
  ++ str "Provide ONLY the summary without any introductory text, explanations, metadata, or additional commentary.".

(** The content handed to the model: cut at [maxContentLength]. *)
Definition maxContentLength : Z := 100000.

Definition truncatedContent (data : RequestData) : jsstring :=
  if (maxContentLength <? Z.of_nat (length (content data)))%Z
  then substring (content data) 0 maxContentLength
       ++ str "... [Content truncated due to length limitations]"
  else content data.

Definition respond (code : nat) (b : body) : Response :=
  {| status := code; json := b |}.

Section Handler.

(** [process.env.ANTHROPIC_API_KEY], empty when it is not set. *)
Variable apiKey : jsstring.

(** [(await anthropic.messages.create(request)).content[0].text]: the
    text, or the error that the call or the read throws. *)
Variable create : MessageRequest -> ApiError + jsstring.

(** The body of the [try]: a response, or the error thrown. *)
Definition attempt (data : RequestData) : ApiError + Response :=
  if eqb (content data) [] || eqb (trim (content data)) [] then
    inr (respond 400 (Error (str "Content is required.")))
  else if eqb (targetLanguage data) [] then
    inr (respond 400 (Error (str "Target language is required.")))
  else if eqb (summaryLength data) [] then
    inr (respond 400 (Error (str "Summary length is required.")))
  else
    let truncated := truncatedContent data in
    if eqb apiKey [] then
      inl {| name := str "Error";
             message := str "Missing Anthropic API key. Please add ANTHROPIC_API_KEY to your environment variables." |}
    else
      let systemPrompt := generatePrompt data in
      match create {| model := str "claude-3-opus-20240229";
                      max_tokens := 4000;
                      system := systemPrompt;
                      userContent := truncated |} with
      | inr summary => inr (respond 200 (Summary summary))
      | inl error => inl error
      end.

(** The [catch]. *)
Definition report (error : ApiError) : Response :=
  if eqb (name error) (str "AnthropicError") then
    respond 500 (Error (str "Anthropic API error: "
                        ++ orElse (message error) (str "Unknown error")))
  else if negb (eqb (message error) []) && includes (message error) (str "API key") then
    respond 500 (Error (str "Anthropic API key error: " ++ message error))
  else
    respond 500 (Error (str "Failed to generate summary: "
                        ++ orElse (message error) (str "Unknown error"))).

Definition handler (method : jsstring) (data : RequestData) : Response :=
  if negb (eqb method (str "POST")) then
    respond 405 (Error (str "Method not allowed. Please use POST."))
  else
    match attempt data with
    | inr response => response
    | inl error => report error
    end.

End Handler.

End SummarizeApi.

(** ** More sample inputs *)

Module MoreSamples.

(** A page whose two reads both fail. *)
Definition lostPage : PdfPage :=
  {| textContent := Throw (str "Timeout extracting text from page 1");
     simpleTextContent := Throw (str "Invalid page") |}.

Definition onePageLost : PdfDocument :=
  {| metadata := None; pages := [lostPage] |}.

Definition scanPlatform : Platform :=
  Samples.samplePlatform (Ok onePageLost) JNull.



(** A file that matches no family. *)
Definition binaryFile : File :=
  {| file_name := str "image.bin";
     file_type := str "application/octet-stream";
     file_size := 4;
     file_arrayBuffer := Ok (list_byte_of_string "oops");
     file_text := Ok (str "oops") |}.

(** A Word 97 file, of a type the upload box accepts. *)
Definition memoFile : File :=
  {| file_name := str "memo.doc";
     file_type := str "application/msword";
     file_size := 19;
     file_arrayBuffer := Ok (list_byte_of_string "Memo: call at noon.");
     file_text := Ok (str "Memo: call at noon.") |}.

Definition firstItem : LocalStorage.SummaryHistoryItem :=
  {| LocalStorage.id := str "a1";
     LocalStorage.date := str "2024-01-01T00:00:00.000Z";
     LocalStorage.sourceLanguage := str "English";
     LocalStorage.targetLanguage := str "French";
     LocalStorage.summaryLength := str "short";
     LocalStorage.contentPreview := str "Hello";
     LocalStorage.summary := str "Bonjour";
     LocalStorage.sourceType := Some (str "text");
     LocalStorage.fileName := None |}.

(** A browser that holds one item and no preferences. *)
Definition oneItemBrowser : LocalStorage.Browser :=
  {| LocalStorage.hasWindow := true;
     LocalStorage.writeError := None;
     LocalStorage.historySlot := LocalStorage.Holds [firstItem];
     LocalStorage.preferencesSlot := LocalStorage.Absent |}.

Definition darkPreferences : LocalStorage.UserPreferences :=
  {| LocalStorage.defaultTargetLanguage := str "German";
     LocalStorage.defaultSummaryLength := str "long";
     LocalStorage.darkMode := true |}.

Definition blankRequest : ContentProcessor.ProcessContentParams :=
  {| ContentProcessor.content := str "   ";
     ContentProcessor.file := None;
     ContentProcessor.targetLanguage := str "French";
     ContentProcessor.summaryLength := str "short";
     ContentProcessor.sourceLanguage := str "auto" |}.

Definition oversizeRequest : ContentProcessor.ProcessContentParams :=
  {| ContentProcessor.content := str "typed text";
     ContentProcessor.file := Some Samples.oversizeFile;
     ContentProcessor.targetLanguage := str "French";
     ContentProcessor.summaryLength := str "short";
     ContentProcessor.sourceLanguage := str "auto" |}.

(** A typed text of 6000 characters. *)
Definition longRequest : ContentProcessor.ProcessContentParams :=
  {| ContentProcessor.content := concat (repeat (str "lorem ipsum ") 500);
     ContentProcessor.file := None;
     ContentProcessor.targetLanguage := str "French";
     ContentProcessor.summaryLength := str "short";
     ContentProcessor.sourceLanguage := str "auto" |}.

Definition validRequest : SummarizeApi.RequestData :=
  {| SummarizeApi.content := str "Some text to summarize.";
     SummarizeApi.targetLanguage := str "French";
     SummarizeApi.summaryLength := str "short";
     SummarizeApi.sourceLanguage := str "English";
     SummarizeApi.sourceType := [];
     SummarizeApi.fileName := [] |}.

(** A model that answers every request alike. *)
Definition echoModel (request : SummarizeApi.MessageRequest)
    : SummarizeApi.ApiError + jsstring :=
  inr (str "Un texte.").

End MoreSamples.

(* ================================================================== *)
(** * Part II: properties *)
(* ================================================================== *)

(** ** Strings *)

Section StringFacts.

Lemma takeWhile_prefix (p : N -> bool) (s : jsstring) :
  firstn (length (takeWhile p s)) s = takeWhile p s.
Proof.
  induction s as [|c s IH]; simpl; [reflexivity|].
  destruct (p c); simpl; [now rewrite IH | reflexivity].
Qed.

Lemma takeWhile_all (p : N -> bool) (s : jsstring) :
  forallb p (takeWhile p s) = true.
Proof.
  induction s as [|c s IH]; simpl; [reflexivity|].
  destruct (p c) eqn:E; simpl; [now rewrite E | reflexivity].
Qed.

Lemma forallb_weaken (p q : N -> bool) (s : jsstring) :
  (forall c, p c = true -> q c = true) ->
  forallb p s = true -> forallb q s = true.
Proof.
  intros Hpq; induction s as [|c s IH]; simpl; [reflexivity|].
  rewrite !andb_true_iff; intros [Hc Hs]; auto.
Qed.

Lemma isNewline_isSpace (c : N) : isNewline c = true -> isSpace c = true.
Proof.
  unfold isNewline; intros H; apply N.eqb_eq in H; subst; reflexivity.
Qed.

Lemma visible_app (a b : jsstring) : visible (a ++ b) = visible a ++ visible b.
Proof. apply filter_app. Qed.

Lemma visible_cons (c : N) (s : jsstring) :
  visible (c :: s) = visible [c] ++ visible s.
Proof. change (c :: s) with ([c] ++ s). apply visible_app. Qed.

Lemma visible_spaces (s : jsstring) :
  forallb isSpace s = true -> visible s = [].
Proof.
  induction s as [|c s IH]; simpl; [reflexivity|].
  rewrite andb_true_iff; intros [Hc Hs]; rewrite Hc; simpl; auto.
Qed.

Lemma visible_nil_spaces (s : jsstring) :
  visible s = [] -> forallb isSpace s = true.
Proof.
  induction s as [|c s IH]; simpl; [reflexivity|].
  destruct (isSpace c); simpl; [assumption | discriminate].
Qed.

(** [slice] between two indices in order is [firstn] of [skipn]. *)
Lemma slice_nat (s : jsstring) (i j : nat) :
  i <= j ->
  slice s (Z.of_nat i) (Z.of_nat j) = firstn (j - i) (skipn i s).
Proof.
  intros Hij; unfold slice, relativeIndex.
  destruct (Z.ltb_spec (Z.of_nat i) 0); [lia|].
  destruct (Z.ltb_spec (Z.of_nat j) 0); [lia|].
  destruct (Nat.le_gt_cases i (length s)) as [Hi|Hi].
  - replace (Z.to_nat (Z.min (Z.of_nat i) (Z.of_nat (length s)))) with i by lia.
    destruct (Nat.le_gt_cases j (length s)) as [Hj|Hj].
    + f_equal; lia.
    + replace (Z.to_nat (Z.min (Z.of_nat j) (Z.of_nat (length s))
                         - Z.min (Z.of_nat i) (Z.of_nat (length s))))
        with (length s - i) by lia.
      rewrite !firstn_all2; try reflexivity; rewrite length_skipn; lia.
  - rewrite (skipn_all2 s (n := i)) by lia.
    rewrite skipn_all2 by lia.
    now rewrite !firstn_nil.
Qed.

(** [substring(0, n)] is the first [n] characters. *)
Lemma substring_prefix (s : jsstring) (n : nat) :
  substring s 0 (Z.of_nat n) = firstn n s.
Proof.
  unfold substring.
  destruct (Nat.le_gt_cases n (length s)) as [Hle|Hgt].
  - replace (Z.min (Z.max 0 0) (Z.of_nat (length s))) with 0%Z by lia.
    replace (Z.min (Z.max (Z.of_nat n) 0) (Z.of_nat (length s)))
      with (Z.of_nat n) by lia.
    replace (Z.to_nat (Z.max 0 (Z.of_nat n) - Z.min 0 (Z.of_nat n)))
      with n by lia.
    now replace (Z.to_nat (Z.min 0 (Z.of_nat n))) with 0 by lia.
  - replace (Z.min (Z.max 0 0) (Z.of_nat (length s))) with 0%Z by lia.
    replace (Z.min (Z.max (Z.of_nat n) 0) (Z.of_nat (length s)))
      with (Z.of_nat (length s)) by lia.
    replace (Z.to_nat (Z.max 0 (Z.of_nat (length s))
                       - Z.min 0 (Z.of_nat (length s))))
      with (length s) by lia.
    replace (Z.to_nat (Z.min 0 (Z.of_nat (length s)))) with 0 by lia.
    simpl skipn. now rewrite !firstn_all2 by lia.
Qed.

End StringFacts.

(** ** The split loops keep the text *)

Section SplitFacts.

Lemma splitLoop_visible (m : matcher) :
  matchesSpace m ->
  forall s before piece skip,
    forallb isSpace (firstn skip s) = true ->
    visible (concat (splitLoop m before piece skip s))
    = visible (rev piece) ++ visible s.
Proof.
  intros Hm; induction s as [|c s IH]; intros before piece skip Hskip.
  - simpl. now rewrite !app_nil_r.
  - destruct skip as [|k].
    + simpl splitLoop.
      destruct (m before (c :: s)) as [[|k]|] eqn:E.
      * rewrite IH by reflexivity. simpl rev.
        now rewrite visible_app, <- app_assoc, <- visible_cons.
      * apply Hm in E. simpl in E. apply andb_true_iff in E as [Hc Hk].
        simpl concat. rewrite visible_app, IH by assumption.
        simpl. now rewrite Hc.
      * rewrite IH by reflexivity. simpl rev.
        now rewrite visible_app, <- app_assoc, <- visible_cons.
    + simpl in Hskip. apply andb_true_iff in Hskip as [Hc Hk].
      simpl splitLoop. rewrite IH by assumption.
      simpl. now rewrite Hc.
Qed.

Lemma split_visible (m : matcher) (s : jsstring) :
  matchesSpace m -> visible (concat (split m s)) = visible s.
Proof.
  intros Hm. unfold split. now rewrite splitLoop_visible.
Qed.

Lemma splitLoop_nonempty (m : matcher) (s before piece : jsstring) (skip : nat) :
  splitLoop m before piece skip s <> [].
Proof.
  revert before piece skip; induction s as [|c s IH]; intros; simpl.
  - discriminate.
  - destruct skip; [|apply IH].
    destruct (m before (c :: s)) as [[|k]|]; try apply IH; discriminate.
Qed.

Lemma reBlankLines_space : matchesSpace reBlankLines.
Proof.
  intros before s n H. unfold reBlankLines in H.
  destruct s as [|a [|b rest]]; try discriminate.
  destruct (isNewline a) eqn:Ha; [|discriminate].
  destruct (isNewline b) eqn:Hb; [|discriminate].
  injection H as <-. cbn [Nat.add firstn forallb].
  rewrite (isNewline_isSpace a Ha), (isNewline_isSpace b Hb), takeWhile_prefix.
  apply forallb_weaken with (p := isNewline);
    [apply isNewline_isSpace | apply takeWhile_all].
Qed.

Lemma reAfterSentence_space : matchesSpace reAfterSentence.
Proof.
  intros before s n H. unfold reAfterSentence in H.
  destruct before as [|p before']; [discriminate|].
  destruct (isSentenceEnd p); [|discriminate].
  destruct (length (takeWhile isSpace s)) eqn:E; [discriminate|].
  injection H as <-. rewrite <- E, takeWhile_prefix. apply takeWhile_all.
Qed.

End SplitFacts.

(** ** What stands before each character *)

Section LayoutFacts.

Import Chunker.














End LayoutFacts.

(** ** The chunker *)

Section ChunkerFacts.

Import Chunker.

Variable maxChunkSize : nat.
Hypothesis positive : 0 < maxChunkSize.

(** Both sides of an equation between texts, as flat lists of parts. *)
Ltac flat_goal :=
  cbn [concat app skipn];
  rewrite ?concat_app, ?visible_app, <- ?app_assoc;
  cbn [concat app visible filter isSpace];
  rewrite ?app_nil_r.

Ltac flat_text H :=
  cbn [concat app skipn] in H;
  rewrite ?concat_app, ?visible_app, <- ?app_assoc in H;
  cbn [concat app] in H;
  rewrite ?app_nil_r in H.

(** The fixed-width loop ends, and its pieces are the rest of the
    sentence cut every [maxChunkSize] characters. *)
Lemma sliceLoop_pieces (sentence : jsstring) :
  forall fuel i chunks,
    length sentence - i <= fuel ->
    exists pieces,
      sliceLoop fuel sentence maxChunkSize i chunks = Some (chunks ++ pieces)
      /\ concat pieces = skipn i sentence
      /\ Forall (fun piece => length piece <= maxChunkSize) pieces
      /\ (i < length sentence -> pieces <> []).
Proof.
  induction fuel as [|fuel IH]; intros i chunks Hfuel.
  - exists []. simpl.
    destruct (Nat.ltb_spec i (length sentence)); [lia|].
    rewrite app_nil_r, skipn_all2 by lia. repeat split; auto; lia.
  - simpl. destruct (Nat.ltb_spec i (length sentence)) as [Hi|Hi].
    + destruct (IH (i + maxChunkSize)
                  (chunks ++ [slice sentence (Z.of_nat i)
                                (Z.of_nat (i + maxChunkSize))]))
        as (pieces & Hrun & Hcat & Hlen & _); [lia|].
      rewrite slice_nat in * by lia.
      replace (i + maxChunkSize - i) with maxChunkSize in * by lia.
      exists (firstn maxChunkSize (skipn i sentence) :: pieces).
      rewrite Hrun, <- app_assoc. repeat split.
      * simpl. rewrite Hcat, Nat.add_comm, <- skipn_skipn.
        apply firstn_skipn.
      * constructor; [|assumption]. rewrite length_firstn. lia.
      * discriminate.
    + exists []. rewrite app_nil_r, skipn_all2 by lia.
      repeat split; auto; lia.
Qed.

Lemma flush_held (chunks : list jsstring) (held : jsstring) :
  exists flushed,
    (if 0 <? length held then (chunks ++ [held], []) else (chunks, held))
    = (chunks ++ flushed, [])
    /\ concat flushed = held
    /\ Forall (fun chunk => length chunk <= length held) flushed.
Proof.
  destruct (Nat.ltb_spec 0 (length held)).
  - exists [held]. simpl. rewrite app_nil_r. auto.
  - exists []. rewrite app_nil_r.
    destruct held; simpl in *; [auto | lia].
Qed.

Lemma push_held (chunks : list jsstring) (held : jsstring) :
  exists flushed,
    (if 0 <? length held then chunks ++ [held] else chunks) = chunks ++ flushed
    /\ concat flushed = held
    /\ Forall (fun chunk => length chunk <= length held) flushed
    /\ (held <> [] -> flushed <> []).
Proof.
  destruct (Nat.ltb_spec 0 (length held)).
  - exists [held]. simpl. rewrite app_nil_r. repeat split; auto. discriminate.
  - exists []. rewrite app_nil_r.
    destruct held; simpl in *; [|lia]. repeat split; auto.
Qed.

Lemma sentenceLoop_handsOn (sentences : list jsstring) :
  forall chunks sentenceChunk,
  exists pushed sentenceChunk',
    sentenceLoop maxChunkSize sentences chunks sentenceChunk
    = Some (chunks ++ pushed, sentenceChunk')
    /\ handsOn (maxChunkSize + 1) sentences sentenceChunk pushed sentenceChunk'.
Proof.
  unfold handsOn.
  induction sentences as [|sentence rest IH]; intros chunks sentenceChunk.
  - exists [], sentenceChunk. simpl. rewrite !app_nil_r.
    split; [reflexivity|]. split; [reflexivity|]. split; [auto|].
    intros [H|H]; [now elim H | now right].
  - cbn [sentenceLoop].
    destruct (Nat.ltb_spec maxChunkSize
                (length sentenceChunk + length sentence + 1)) as [Hfull|Hfits].
    + destruct (Nat.ltb_spec maxChunkSize (length sentence)) as [Hlong|Hshort].
      * (* the sentence alone is too long: fixed-width slices *)
        destruct (flush_held chunks sentenceChunk)
          as (flushed & -> & Hflushed & Hbound).
        cbn [fst snd].
        destruct (sliceLoop_pieces sentence (length sentence) 0
                    (chunks ++ flushed))
          as (pieces & -> & Hcat & Hlen & Hne); [lia|].
        destruct (IH ((chunks ++ flushed) ++ pieces) [])
          as (pushed & held & -> & Htext & Hsize & _).
        exists (flushed ++ pieces ++ pushed), held.
        rewrite <- !app_assoc. split; [reflexivity|].
        split; [|split].
        -- flat_text Htext. flat_text Hcat. flat_goal.
           now rewrite Hflushed, Hcat, Htext.
        -- intros Hheld. destruct Hsize as [Hpushed Hheld']; [simpl; lia|].
           split; [|assumption].
           apply Forall_app; split;
             [eapply Forall_impl; [|exact Hbound]; simpl; intros; lia|].
           apply Forall_app; split;
             [eapply Forall_impl; [|exact Hlen]; simpl; intros; lia|].
           assumption.
        -- intros _. left. intros Hnil. apply app_eq_nil in Hnil as [_ Hnil].
           apply app_eq_nil in Hnil as [Hnil _]. apply Hne; [lia | assumption].
      * (* the held chunk is pushed, the sentence starts the next one *)
        destruct (IH (chunks ++ [sentenceChunk]) (sentence ++ str " "))
          as (pushed & held & -> & Htext & Hsize & _).
        exists (sentenceChunk :: pushed), held.
        rewrite <- app_assoc. split; [reflexivity|].
        split; [|split].
        -- flat_text Htext. flat_goal. now rewrite Htext.
        -- intros Hheld.
           destruct Hsize as [Hpushed Hheld'];
             [rewrite length_app; simpl; lia|].
           split; [constructor|]; assumption.
        -- intros _. left; discriminate.
    + (* the sentence joins the held chunk *)
      destruct (IH chunks (sentenceChunk ++ sentence ++ str " "))
        as (pushed & held & -> & Htext & Hsize & Hsome).
      exists pushed, held. split; [reflexivity|].
      split; [|split].
      * flat_text Htext. flat_goal. now rewrite Htext.
      * intros _. apply Hsize. rewrite !length_app; simpl; lia.
      * intros _. apply Hsome. right.
        destruct sentenceChunk, sentence; discriminate.
Qed.

Lemma paragraphLoop_handsOn (paragraphs : list jsstring) :
  forall chunks currentChunk,
  exists pushed currentChunk',
    paragraphLoop maxChunkSize paragraphs chunks currentChunk
    = Some (chunks ++ pushed, currentChunk')
    /\ handsOn (maxChunkSize + 2) paragraphs currentChunk pushed currentChunk'.
Proof.
  unfold handsOn.
  induction paragraphs as [|paragraph rest IH]; intros chunks currentChunk.
  - exists [], currentChunk. simpl. rewrite !app_nil_r.
    split; [reflexivity|]. split; [reflexivity|]. split; [auto|].
    intros [H|H]; [now elim H | now right].
  - cbn [paragraphLoop].
    destruct (Nat.ltb_spec maxChunkSize
                (length currentChunk + length paragraph + 2)) as [Hfull|Hfits].
    + destruct (Nat.ltb_spec maxChunkSize (length paragraph)) as [Hlong|Hshort].
      * (* the paragraph alone is too long: sentence by sentence *)
        destruct (flush_held chunks currentChunk)
          as (flushed & -> & Hflushed & Hbound).
        cbn [fst snd].
        destruct (sentenceLoop_handsOn (split reAfterSentence paragraph)
                    (chunks ++ flushed) [])
          as (fromSentences & sentenceChunk & -> & Htext1 & Hsize1 & Hsome1).
        destruct (push_held ((chunks ++ flushed) ++ fromSentences) sentenceChunk)
          as (last & -> & Hlast & Hlastbound & Hlastsome).
        destruct (IH (((chunks ++ flushed) ++ fromSentences) ++ last) [])
          as (pushed & held & -> & Htext & Hsize & _).
        exists (flushed ++ fromSentences ++ last ++ pushed), held.
        rewrite <- !app_assoc. split; [reflexivity|].
        split; [|split].
        -- flat_text Htext. flat_text Htext1. flat_goal.
           rewrite Hflushed, Hlast, Htext.
           rewrite (app_assoc (visible (concat fromSentences))), Htext1.
           now rewrite split_visible by apply reAfterSentence_space.
        -- intros Hheld. destruct Hsize as [Hpushed Hheld']; [simpl; lia|].
           destruct Hsize1 as [Hfrom Hchunk]; [simpl; lia|].
           split; [|assumption].
           apply Forall_app; split;
             [eapply Forall_impl; [|exact Hbound]; simpl; intros; lia|].
           apply Forall_app; split;
             [eapply Forall_impl; [|exact Hfrom]; simpl; intros; lia|].
           apply Forall_app; split;
             [eapply Forall_impl; [|exact Hlastbound]; simpl; intros; lia|].
           assumption.
        -- intros _. left. intros Hnil.
           apply app_eq_nil in Hnil as [_ Hnil].
           apply app_eq_nil in Hnil as [Hfrom Hnil].
           apply app_eq_nil in Hnil as [Hnil _].
           destruct Hsome1 as [H|H];
             [left; apply splitLoop_nonempty | now apply H |].
           now apply Hlastsome.
      * (* the held chunk is pushed, the paragraph starts the next one *)
        destruct (IH (chunks ++ [currentChunk]) (paragraph ++ nl ++ nl))
          as (pushed & held & -> & Htext & Hsize & _).
        exists (currentChunk :: pushed), held.
        rewrite <- app_assoc. split; [reflexivity|].
        split; [|split].
        -- simpl concat. rewrite <- app_assoc, (visible_app currentChunk), Htext.
           rewrite <- !app_assoc, !visible_app. reflexivity.
        -- intros Hheld.
           destruct Hsize as [Hpushed Hheld'];
             [rewrite !length_app; simpl; lia|].
           split; [constructor|]; assumption.
        -- intros _. left; discriminate.
    + (* the paragraph joins the held chunk *)
      destruct (IH chunks (currentChunk ++ paragraph ++ nl ++ nl))
        as (pushed & held & -> & Htext & Hsize & Hsome).
      exists pushed, held. split; [reflexivity|].
      split; [|split].
      * flat_text Htext. flat_goal. now rewrite Htext.
      * intros _. apply Hsize. rewrite !length_app; simpl; lia.
      * intros _. apply Hsome. right.
        destruct currentChunk, paragraph; discriminate.
Qed.

(** Everything the chunker promises for a positive limit, in one place:
    it returns, and its chunks keep the text, are at most two characters
    over the limit, and are at least one. *)
Lemma chunkContent_summary (content : jsstring) :
  exists chunks,
    chunkContent content maxChunkSize = Some chunks
    /\ visible (concat chunks) = visible content
    /\ Forall (fun chunk => length chunk <= maxChunkSize + 2) chunks
    /\ chunks <> [].
Proof.
  unfold chunkContent.
  destruct (Nat.leb_spec (length content) maxChunkSize) as [Hsmall|Hbig].
  - exists [content]. simpl. rewrite app_nil_r.
    repeat split; [constructor; [lia | constructor] | discriminate].
  - destruct (paragraphLoop_handsOn (split reBlankLines content) [] [])
      as (pushed & held & -> & Htext & Hsize & Hsome).
    simpl app.
    destruct (push_held pushed held) as (last & -> & Hlast & Hbound & Hlastsome).
    exists (pushed ++ last). split; [reflexivity|].
    destruct Hsize as [Hpushed Hheld]; [simpl; lia|].
    split; [|split].
    + flat_text Htext. flat_goal. rewrite Hlast, Htext.
      apply split_visible, reBlankLines_space.
    + apply Forall_app; split; [assumption|].
      eapply Forall_impl; [|exact Hbound]. simpl; intros; lia.
    + intros Hnil. apply app_eq_nil in Hnil as [Hp Hl].
      destruct Hsome as [H|H];
        [left; apply splitLoop_nonempty | now apply H |].
      now apply Hlastsome.
Qed.






End ChunkerFacts.

Section ChunkerProperties.

Import Chunker Samples.

(** C3. A text no longer than [maxChunkSize] comes back as the one chunk,
    unchanged: [chunkContent t maxChunkSize] is [[t]]. *)
Theorem chunkContent_short_text (t : jsstring) (maxChunkSize : nat) :
  length t <= maxChunkSize ->
  chunkContent t maxChunkSize = Some [t].
Proof.
  intros Hshort. unfold chunkContent.
  now destruct (Nat.leb_spec (length t) maxChunkSize); [|lia].
Qed.

(** C10. For every text, the empty one included, and every positive
    [maxChunkSize], [chunkContent] returns, and returns at least one
    chunk. *)
Theorem chunkContent_never_empty (content : jsstring) (maxChunkSize : nat) :
  0 < maxChunkSize ->
  exists chunks,
    chunkContent content maxChunkSize = Some chunks /\ chunks <> [].
Proof.
  intros Hpos.
  destruct (chunkContent_summary maxChunkSize Hpos content)
    as (chunks & Hrun & _ & _ & Hsome).
  now exists chunks.
Qed.


(** X1. The bound the code does keep: for a positive [maxChunkSize],
    no chunk is more than two characters over it (the separator that is
    appended after the test). *)
Theorem chunkContent_within_two (content : jsstring) (maxChunkSize : nat) :
  0 < maxChunkSize ->
  exists chunks,
    chunkContent content maxChunkSize = Some chunks
    /\ Forall (fun chunk => length chunk <= maxChunkSize + 2) chunks.
Proof.
  intros Hpos.
  destruct (chunkContent_summary maxChunkSize Hpos content)
    as (chunks & Hrun & _ & Hbound & _).
  now exists chunks.
Qed.

(** C1, at an input where it fails.  With a limit of 10, the text
    [aaa bbb c], a blank line, [d] has no word longer than 3, yet the
    second chunk returned is the first paragraph with its separator, 11
    characters; the first chunk is empty. *)
Theorem chunkContent_over_limit :
  chunkContent nineThenOne 10
  = Some [ []; str "aaa bbb c" ++ nl ++ nl; str "d" ++ nl ++ nl ]
  /\ length (str "aaa bbb c" ++ nl ++ nl) = 11
  /\ split reSpaces nineThenOne = [str "aaa"; str "bbb"; str "c"; str "d"].
Proof. repeat split. Qed.

End ChunkerProperties.

Lemma chunkContent_short_text_witness :
  length (Samples.nineThenOne) <= 12
  /\ Chunker.chunkContent Samples.nineThenOne 12 = Some [Samples.nineThenOne].
Proof.
  assert (H : length Samples.nineThenOne <= 12) by (vm_compute; lia).
  split; [exact H | exact (chunkContent_short_text Samples.nineThenOne 12 H)].
Defined.

Lemma chunkContent_never_empty_witness :
  0 < 12
  /\ exists chunks,
       Chunker.chunkContent Samples.threeSentences 12 = Some chunks
       /\ chunks <> [].
Proof.
  assert (H : 0 < 12) by lia.
  split; [exact H | exact (chunkContent_never_empty Samples.threeSentences 12 H)].
Defined.



(** The chunks of the second sample, for the record. *)
Example chunkContent_threeSentences :
  Chunker.chunkContent Samples.threeSentences 12
  = Some [ str "One two. "; str "Three four f"; str "ive!";
           str "Sixseveneigh"; str "tnine?"; str "Ten." ++ nl ++ nl ].
Proof. reflexivity. Qed.

(** ** The language sampler *)

Section SamplerFacts.

Import LanguageDetection.

Lemma dropWhile_nil (p : N -> bool) (s : jsstring) :
  dropWhile p s = [] <-> forallb p s = true.
Proof.
  induction s as [|c s IH]; simpl; [tauto|].
  destruct (p c); simpl; [exact IH|].
  split; discriminate.
Qed.

Lemma forallb_rev (p : N -> bool) (s : jsstring) :
  forallb p (rev s) = forallb p s.
Proof.
  induction s as [|c s IH]; simpl; [reflexivity|].
  rewrite forallb_app, IH. simpl. rewrite andb_true_r. apply andb_comm.
Qed.

Lemma dropWhile_head (p : N -> bool) (s : jsstring) :
  forallb p (dropWhile p s) = true -> dropWhile p s = [].
Proof.
  induction s as [|c s IH]; simpl; [reflexivity|].
  destruct (p c) eqn:E; [exact IH|].
  simpl. rewrite E. discriminate.
Qed.

(** [text.trim() === ''] says the text is white space throughout. *)
Lemma trim_blank (s : jsstring) :
  trim s = [] <-> forallb isSpace s = true.
Proof.
  unfold trim, trimEnd, trimStart. split.
  - intros H. apply (f_equal (@rev N)) in H. rewrite rev_involutive in H.
    simpl in H. apply dropWhile_nil in H. rewrite forallb_rev in H.
    now apply dropWhile_nil, dropWhile_head.
  - intros H. apply dropWhile_nil in H. now rewrite H.
Qed.

Lemma forallb_firstn (p : N -> bool) (n : nat) (s : jsstring) :
  forallb p s = true -> forallb p (firstn n s) = true.
Proof.
  revert n; induction s as [|c s IH]; intros [|n]; simpl; auto.
  rewrite !andb_true_iff; intros [Hc Hs]; auto.
Qed.

Lemma forallb_skipn (p : N -> bool) (n : nat) (s : jsstring) :
  forallb p s = true -> forallb p (skipn n s) = true.
Proof.
  revert n; induction s as [|c s IH]; intros [|n]; simpl; auto.
  rewrite !andb_true_iff; intros [Hc Hs]; auto.
Qed.

Lemma policySample_blank (text : jsstring) :
  forallb isSpace text = true -> forallb isSpace (policySample text) = true.
Proof.
  intros H. unfold policySample.
  destruct (length text <=? 1000); [assumption|].
  destruct (length text <=? 2000); [now apply forallb_firstn|].
  rewrite !forallb_app.
  rewrite !forallb_firstn, forallb_skipn;
    auto using forallb_skipn.
Qed.

(** [detectLanguage] on the texts of the specification's examples, with a
    detector that answers [eng]. *)
Example detectLanguage_examples :
  let franc := Some (fun _ : jsstring => Ok (str "eng")) in
  detectLanguage franc [] = str "unknown"
  /\ detectLanguage franc (str "a") = str "unknown"
  /\ detectLanguage franc
       (str "This is a clearly written English sentence with enough length.")
     = str "English"
  /\ detectLanguage None
       (str "This is a clearly written English sentence with enough length.")
     = str "unknown".
Proof. repeat split. Qed.

(** The [slice] calls of the code cut what the policy says. *)
Lemma sampleText_policy (text : jsstring) :
  sampleText text = policySample text.
Proof.
  unfold sampleText, policySample, sliceFrom.
  set (n := length text).
  destruct (Z.ltb_spec 2000 (Z.of_nat n)) as [Hlong|Hnotlong].
  - destruct (Nat.leb_spec n 1000); [lia|].
    destruct (Nat.leb_spec n 2000); [lia|].
    assert (Hmid : (Z.of_nat n / 2 - 300)%Z = Z.of_nat (n / 2 - 300)).
    { rewrite Nat2Z.inj_sub, Nat2Z.inj_div; [reflexivity|].
      apply Nat.div_le_lower_bound; lia. }
    rewrite Hmid.
    replace (Z.of_nat (n / 2 - 300) + 600)%Z
      with (Z.of_nat (n / 2 - 300 + 600)) by lia.
    replace (Z.of_nat n - 600)%Z with (Z.of_nat (n - 600)) by lia.
    change 0%Z with (Z.of_nat 0). change 600%Z with (Z.of_nat 600).
    rewrite !slice_nat by lia.
    rewrite Nat.sub_0_r, skipn_O.
    replace (n / 2 - 300 + 600 - (n / 2 - 300)) with 600 by lia.
    rewrite (firstn_all2 (n := n - (n - 600)))
      by (rewrite length_skipn; fold n; lia).
    reflexivity.
  - destruct (Nat.leb_spec n 2000); [|lia].
    destruct (Z.ltb_spec 1000 (Z.of_nat n)).
    + destruct (Nat.leb_spec n 1000); [lia|].
      change 0%Z with (Z.of_nat 0). change 1000%Z with (Z.of_nat 1000).
      rewrite slice_nat by lia. now rewrite Nat.sub_0_r, skipn_O.
    + destruct (Nat.leb_spec n 1000); [reflexivity | lia].
Qed.

Variable franc : option (jsstring -> outcome jsstring).

Lemma francDetect_blank (sample : jsstring) :
  forallb isSpace sample = true -> francDetect franc sample = str "und".
Proof.
  intros H. unfold francDetect. destruct franc; [|reflexivity].
  apply trim_blank in H. now rewrite H.
Qed.

(** C7. [detectLanguage] answers what the detector answers on the sample
    of the policy: the whole text up to 1000 characters, its first 1000
    up to 2000, and beyond 2000 its first 600, the 600 from 300 before
    the midpoint, and its last 600, joined by single spaces.  (A text of
    white space only is answered without the detector, which would
    answer the same.) *)
Theorem detectLanguage_sample (text : jsstring) :
  detectLanguage franc text
  = languageName (francDetect franc (policySample text)).
Proof.
  unfold detectLanguage. rewrite sampleText_policy.
  unfold eqb at 1. destruct (list_eq_dec N.eq_dec (trim text) []) as [Hblank|];
    [|reflexivity].
  apply trim_blank in Hblank.
  now rewrite francDetect_blank by now apply policySample_blank.
Qed.

End SamplerFacts.

(** In a long text each of the three zones is 600 characters, so the
    sample is 1802. *)
Lemma policySample_long (text : jsstring) :
  2000 < length text ->
  length (LanguageDetection.policySample text) = 1802
  /\ length (firstn 600 (skipn (length text / 2 - 300) text)) = 600.
Proof.
  intros Hlong. unfold LanguageDetection.policySample.
  destruct (Nat.leb_spec (length text) 1000); [lia|].
  destruct (Nat.leb_spec (length text) 2000); [lia|].
  assert (Hmid : length text / 2 <= length text)
    by (apply Nat.Div0.div_le_upper_bound; lia).
  assert (Hhalf : 1000 <= length text / 2)
    by (apply Nat.div_le_lower_bound; lia).
  assert (Hup : length text / 2 + 300 <= length text).
  { pose proof (Nat.div_mod_eq (length text) 2) as E.
    pose proof (Nat.mod_upper_bound (length text) 2). lia. }
  rewrite !length_app, !length_firstn, !length_skipn. simpl length. lia.
Qed.

(** ** The PDF engine *)

Section PdfFacts.

Import PdfUtils.

Variable P : Platform.

(** The byte scan catches what it throws: it always answers a string. *)
Lemma extractBasicTextFromPdf_returns (arrayBuffer : bytes) :
  exists basicText, extractBasicTextFromPdf P arrayBuffer = Ok basicText.
Proof.
  unfold extractBasicTextFromPdf.
  destruct (decode P arrayBuffer) as [pdfData|message]; simpl; [|eauto].
  repeat match goal with
         | |- context [if ?b then _ else _] => destruct b
         end; simpl; eauto.
Qed.

(** Whatever pdf.js answers, the engine returns a string. *)
Lemma extractTextFromPdf_returns (arrayBuffer : bytes) :
  exists shown, extractTextFromPdf P arrayBuffer = Ok shown.
Proof.
  unfold extractTextFromPdf.
  destruct (extractBasicTextFromPdf_returns arrayBuffer) as (basicText & ->).
  destruct (getDocument P arrayBuffer) as [pdfDocument|message];
    cbn [bind tryCatch];
    repeat match goal with
           | |- context [if ?b then _ else _] => destruct b
           end; cbn [bind tryCatch]; eauto.
Qed.

(** C5. When the structured parse throws, [extractTextFromPdf] does not
    raise: it returns the text recovered by the byte scan, followed by
    the note that the fallback was used, as soon as that text is longer
    than 50 characters once trimmed, so in particular when it has 100 or
    more, and the message that names the error otherwise. *)
Theorem extractTextFromPdf_parse_failure (arrayBuffer : bytes) (message : jsstring) :
  getDocument P arrayBuffer = Throw message ->
  exists basicText,
    extractBasicTextFromPdf P arrayBuffer = Ok basicText
    /\ extractTextFromPdf P arrayBuffer
       = Ok (if 50 <? length (trim basicText)
             then basicText ++ fallbackNote
             else failureMessage message)
    /\ (100 <= length (trim basicText) ->
        extractTextFromPdf P arrayBuffer = Ok (basicText ++ fallbackNote)).
Proof.
  intros Hload.
  destruct (extractBasicTextFromPdf_returns arrayBuffer) as (basicText & Hbasic).
  exists basicText. split; [assumption|].
  assert (Hrun : extractTextFromPdf P arrayBuffer
                 = Ok (if 50 <? length (trim basicText)
                       then basicText ++ fallbackNote
                       else failureMessage message)).
  { unfold extractTextFromPdf. rewrite Hload, Hbasic. simpl.
    now destruct (50 <? length (trim basicText)). }
  split; [assumption|].
  intros Hlong. rewrite Hrun.
  now destruct (Nat.ltb_spec 50 (length (trim basicText))); [|lia].
Qed.

(** Once runs of white space are single spaces no newline is left, so
    the second replacement of the clean-up finds nothing to replace. *)
Lemma collapse_no_newline (s : jsstring) :
  forall before skip,
    forallb (fun c => negb (isNewline c))
      (replaceLoop reSpaces (str " ") before skip s) = true.
Proof.
  induction s as [|c s IH]; intros before skip; [reflexivity|].
  destruct skip as [|k]; cbn [replaceLoop]; [|apply IH].
  unfold reSpaces. cbn [takeWhile].
  destruct (isSpace c) eqn:Hc; cbn [length].
  - cbn [app str map list_ascii_of_string forallb]. now rewrite IH.
  - cbn [forallb]. rewrite IH, andb_true_r.
    destruct (isNewline c) eqn:Hn; [|reflexivity].
    apply isNewline_isSpace in Hn. congruence.
Qed.

Lemma reBlankGap_idle (by_ s : jsstring) :
  forallb (fun c => negb (isNewline c)) s = true ->
  forall before, replaceLoop reBlankGap by_ before 0 s = s.
Proof.
  induction s as [|c s IH]; intros Hs before; [reflexivity|].
  cbn [forallb] in Hs. apply andb_true_iff in Hs as [Hc Hs].
  cbn [replaceLoop reBlankGap].
  destruct (isNewline c); [discriminate|]. now rewrite IH.
Qed.

Lemma cleanUp_collapse (extractedText : jsstring) :
  cleanUp extractedText = trim (replaceAll reSpaces (str " ") extractedText).
Proof.
  unfold cleanUp, replaceAll at 1.
  now rewrite reBlankGap_idle by apply collapse_no_newline.
Qed.

(** When pdf.js opens the document and the pages give 50 characters or
    more, the result is the text of the pages with its white space
    collapsed. *)
Lemma extractTextFromPdf_pages (arrayBuffer : bytes) (pdfDocument : PdfDocument) :
  getDocument P arrayBuffer = Ok pdfDocument ->
  let extractedText :=
    pageLoop (numPages pdfDocument) 1 (pages pdfDocument)
      (metadataHeader pdfDocument) in
  50 <= length (trim extractedText) ->
  extractTextFromPdf P arrayBuffer
  = Ok (trim (replaceAll reSpaces (str " ") extractedText)).
Proof.
  intros Hload extractedText Hlong. unfold extractTextFromPdf.
  rewrite Hload. cbn [bind tryCatch]. fold extractedText.
  destruct (Nat.ltb_spec (length (trim extractedText)) 50); [lia|].
  now rewrite cleanUp_collapse.
Qed.

End PdfFacts.

Lemma extractTextFromPdf_parse_failure_witness :
  getDocument Samples.examplePlatform Samples.textRunBuffer
  = Throw (str "Invalid PDF structure")
  /\ exists basicText,
       PdfUtils.extractBasicTextFromPdf Samples.examplePlatform Samples.textRunBuffer
       = Ok basicText
       /\ PdfUtils.extractTextFromPdf Samples.examplePlatform Samples.textRunBuffer
          = Ok (if 50 <? length (trim basicText)
                then basicText ++ PdfUtils.fallbackNote
                else PdfUtils.failureMessage (str "Invalid PDF structure"))
       /\ (100 <= length (trim basicText) ->
           PdfUtils.extractTextFromPdf Samples.examplePlatform Samples.textRunBuffer
           = Ok (basicText ++ PdfUtils.fallbackNote)).
Proof.
  split; [reflexivity|].
  apply (extractTextFromPdf_parse_failure Samples.examplePlatform
           Samples.textRunBuffer (str "Invalid PDF structure")).
  reflexivity.
Defined.

(** The sample buffer: the byte scan recovers 109 characters, and they
    are returned with the note. *)
Example extractTextFromPdf_textRun :
  PdfUtils.extractBasicTextFromPdf Samples.examplePlatform Samples.textRunBuffer
  = Ok (str "The quick brown fox jumps over the lazy dog and keeps running through the quiet fields until the evening comes")
  /\ PdfUtils.extractTextFromPdf Samples.examplePlatform Samples.textRunBuffer
     = Ok (str "The quick brown fox jumps over the lazy dog and keeps running through the quiet fields until the evening comes"
           ++ nl ++ nl
           ++ str "[Note: Text extracted using fallback method due to error with main PDF processor]").
Proof. split; vm_compute; reflexivity. Qed.

(** ** The dispatcher and the extractors *)

Section DispatcherFacts.

Import FileProcessors.

Variable P : Platform.

(** The [catch] of the dispatcher throws whatever it caught. *)
Lemma rethrow_throws (file : File) (fileType fileExtension message : jsstring) :
  exists thrown,
    rethrow P file fileType fileExtension message = Throw thrown
    /\ thrown <> [] /\ thrown <> sizeMessage.
Proof.
  unfold rethrow.
  repeat match goal with
         | |- context [if ?b then _ else _] => destruct b
         end;
    eexists; (split; [reflexivity|]); split; intros H;
    try discriminate H; vm_compute in H; discriminate H.
Qed.

(** C8, as the code has it.  The dispatcher does enforce a maximum of its
    own, 50 MB: a file whose declared size is over 52428800 bytes is
    refused with [File size exceeds maximum allowed size (50MB)] before
    any dispatch, and a file within it goes to the dispatch table and is
    never refused with that message. *)
Theorem extractTextFromFile_size_guard (file : File) :
  sizeMessage = str "File size exceeds maximum allowed size (50MB)"
  /\ ((52428800 < file_size file)%N ->
      extractTextFromFile P file = Throw sizeMessage)
  /\ ((file_size file <= 52428800)%N ->
      extractTextFromFile P file
      = tryCatch (dispatch P file (file_type file) (extensionOf P file))
                 (rethrow P file (file_type file) (extensionOf P file))
      /\ extractTextFromFile P file <> Throw sizeMessage).
Proof.
  split; [reflexivity|]. unfold extractTextFromFile.
  change MAX_FILE_SIZE with 52428800%N.
  split; intros Hsize.
  - now destruct (N.ltb_spec 52428800 (file_size file)); [|lia].
  - destruct (N.ltb_spec 52428800 (file_size file)); [lia|].
    split; [reflexivity|].
    destruct (dispatch P file (file_type file) (extensionOf P file))
      as [result|message]; simpl; [discriminate|].
    destruct (rethrow_throws file (file_type file) (extensionOf P file) message)
      as (thrown & -> & _ & Hother).
    congruence.
Qed.

(** C4, as the code has it.  Within the size limit, a DOCX whose
    extraction fails is refused with the message that the file appears to
    be corrupted or invalid, and a CSV whose parser fails is refused with
    a message; a JSON file whose text does not parse is not refused: the
    dispatcher returns a JSON result whose text says that the file
    contains syntax errors. *)
Theorem extractTextFromFile_parser_rejects (file : File) :
  (file_size file <= MAX_FILE_SIZE)%N ->
  parserRejects P file = true ->
  match familyOf (file_type file) (extensionOf P file) with
  | JsonFile =>
      extractTextFromFile P file
      = Ok {| text := str "The JSON file contains syntax errors and could not be parsed.";
              type := str "JSON";
              fileName := file_name file |}
  | DocxFile =>
      extractTextFromFile P file
      = Throw (str "The file '" ++ file_name file
               ++ str "' appears to be corrupted or invalid. Please check the file and try again.")
  | _ =>
      exists thrown,
        extractTextFromFile P file = Throw thrown /\ thrown <> []
  end.
Proof.
  intros Hsize Hrejects. unfold extractTextFromFile.
  destruct (N.ltb_spec MAX_FILE_SIZE (file_size file)); [lia|].
  unfold parserRejects in Hrejects. unfold dispatch.
  destruct (familyOf (file_type file) (extensionOf P file));
    try discriminate Hrejects.
  - (* DOCX *)
    unfold extractFromDocx.
    destruct (file_arrayBuffer file) as [arrayBuffer|e]; simpl in *;
      [destruct (extractRawText P arrayBuffer) as [value|e];
       [discriminate Hrejects|]|];
      reflexivity.
  - (* CSV *)
    unfold extractFromCsv.
    destruct (papaParse P file) as [results|message]; [discriminate Hrejects|].
    cbn [bind tryCatch].
    destruct (rethrow_throws file (file_type file) (extensionOf P file)
                (str "Failed to parse CSV file: " ++ message))
      as (thrown & -> & Hsome & _).
    now exists thrown.
  - (* JSON *)
    unfold extractFromJson.
    destruct (file_text file) as [text|e]; [|discriminate Hrejects].
    now destruct (JSON_parse P text); [discriminate Hrejects|].
Qed.



End DispatcherFacts.

Lemma extractTextFromFile_size_guard_witness :
  (52428800 < file_size Samples.oversizeFile)%N
  /\ FileProcessors.extractTextFromFile Samples.examplePlatform Samples.oversizeFile
     = Throw FileProcessors.sizeMessage.
Proof.
  assert (H : (52428800 < file_size Samples.oversizeFile)%N) by reflexivity.
  split; [exact H|].
  exact (proj1 (proj2 (extractTextFromFile_size_guard Samples.examplePlatform
                         Samples.oversizeFile)) H).
Defined.

(** C8, as stated, fails: a plain-text file declared one byte over 50 MB
    is refused for its size, where the same file declared at 5 bytes is
    read. *)
Lemma extractTextFromFile_refuses_oversize :
  FileProcessors.extractTextFromFile Samples.examplePlatform Samples.oversizeFile
  = Throw (str "File size exceeds maximum allowed size (50MB)")
  /\ FileProcessors.extractTextFromFile Samples.examplePlatform Samples.smallFile
     = Ok {| FileProcessors.text := str "hello";
             FileProcessors.type := str "TXT";
             FileProcessors.fileName := str "note.txt" |}.
Proof. split; vm_compute; reflexivity. Qed.

Lemma extractTextFromFile_parser_rejects_witness :
  (file_size Samples.brokenDocxFile <= FileProcessors.MAX_FILE_SIZE)%N
  /\ FileProcessors.parserRejects Samples.examplePlatform Samples.brokenDocxFile = true
  /\ FileProcessors.extractTextFromFile Samples.examplePlatform Samples.brokenDocxFile
     = Throw (str "The file 'Report.DOCX' appears to be corrupted or invalid. Please check the file and try again.").
Proof.
  assert (Hsize : (file_size Samples.brokenDocxFile
                   <= FileProcessors.MAX_FILE_SIZE)%N)
    by (vm_compute; discriminate).
  assert (Hrejects : FileProcessors.parserRejects Samples.examplePlatform
                       Samples.brokenDocxFile = true) by reflexivity.
  split; [exact Hsize|]. split; [exact Hrejects|].
  exact (extractTextFromFile_parser_rejects Samples.examplePlatform
           Samples.brokenDocxFile Hsize Hrejects).
Defined.

(** C4, as stated, fails for JSON: the text [{] does not parse, and the
    dispatcher returns a result of type JSON, it does not raise. *)
Lemma extractTextFromFile_json_syntax_error_returns :
  FileProcessors.parserRejects Samples.examplePlatform Samples.brokenJsonFile = true
  /\ FileProcessors.extractTextFromFile Samples.examplePlatform Samples.brokenJsonFile
     = Ok {| FileProcessors.text :=
               str "The JSON file contains syntax errors and could not be parsed.";
             FileProcessors.type := str "JSON";
             FileProcessors.fileName := str "data.json" |}
  /\ forall thrown,
       FileProcessors.extractTextFromFile Samples.examplePlatform Samples.brokenJsonFile
       <> Throw thrown.
Proof.
  split; [reflexivity|]. split; [vm_compute; reflexivity|].
  intros thrown H. vm_compute in H. discriminate H.
Qed.



(* ================================================================== *)
(** * Part III: further properties of the code *)
(* ================================================================== *)

(** ** More on the split loops *)

Section MoreSplitFacts.

(** What a split drops is what the expression matches: if every match is
    made of characters in [q], the characters outside [q] are kept, in
    order. *)
Lemma splitLoop_keeps (q : N -> bool) (m : matcher) :
  (forall before s n, m before s = Some n -> forallb q (firstn n s) = true) ->
  forall s before piece skip,
    forallb q (firstn skip s) = true ->
    filter (fun c => negb (q c)) (concat (splitLoop m before piece skip s))
    = filter (fun c => negb (q c)) (rev piece)
      ++ filter (fun c => negb (q c)) s.
Proof.
  intros Hm; induction s as [|c s IH]; intros before piece skip Hskip.
  - simpl. now rewrite !app_nil_r.
  - destruct skip as [|k].
    + cbn [splitLoop].
      destruct (m before (c :: s)) as [[|k]|] eqn:E.
      * rewrite IH by reflexivity. cbn [rev].
        rewrite filter_app, <- app_assoc. cbn [filter].
        now destruct (negb (q c)).
      * apply Hm in E. cbn [firstn forallb] in E.
        apply andb_true_iff in E as [Hc Hk].
        cbn [concat]. rewrite filter_app, IH by assumption.
        cbn [rev filter]. now rewrite Hc.
      * rewrite IH by reflexivity. cbn [rev].
        rewrite filter_app, <- app_assoc. cbn [filter].
        now destruct (negb (q c)).
    + cbn [firstn forallb] in Hskip. apply andb_true_iff in Hskip as [Hc Hk].
      cbn [splitLoop]. rewrite IH by assumption.
      cbn [filter]. now rewrite Hc.
Qed.

Lemma reBlankLines_newlines (before s : jsstring) (n : nat) :
  reBlankLines before s = Some n -> forallb isNewline (firstn n s) = true.
Proof.
  unfold reBlankLines. destruct s as [|a [|b rest]]; try discriminate.
  destruct (isNewline a) eqn:Ha; [|discriminate].
  destruct (isNewline b) eqn:Hb; [|discriminate].
  intros H. injection H as <-. cbn [Nat.add firstn forallb].
  rewrite Ha, Hb, takeWhile_prefix. apply takeWhile_all.
Qed.

Lemma concat_some_piece (pieces : list jsstring) :
  concat pieces <> [] -> Exists (fun piece => piece <> []) pieces.
Proof.
  induction pieces as [|piece pieces IH]; simpl; intros H; [now elim H|].
  destruct piece as [|c piece]; [right; now apply IH | left; discriminate].
Qed.

(** A text with a character that is not a newline has a paragraph that
    is not empty. *)
Lemma paragraphs_some_piece (content : jsstring) :
  existsb (fun c => negb (isNewline c)) content = true ->
  Exists (fun paragraph => paragraph <> []) (split reBlankLines content).
Proof.
  intros Hsome. apply concat_some_piece. intros Hnil.
  pose proof (splitLoop_keeps isNewline reBlankLines reBlankLines_newlines
                content [] [] 0 eq_refl) as Hkeep.
  fold (split reBlankLines content) in Hkeep. rewrite Hnil in Hkeep.
  cbn [rev filter app] in Hkeep.
  apply existsb_exists in Hsome as (c & Hin & Hc).
  assert (Hfiltered : In c (filter (fun c => negb (isNewline c)) content))
    by now apply filter_In.
  rewrite <- Hkeep in Hfiltered. exact Hfiltered.
Qed.

(** The first piece of a split starts with what the loop holds. *)
Lemma splitLoop_first_piece (m : matcher) (s : jsstring) :
  forall before piece skip,
  exists first others,
    splitLoop m before piece skip s = first :: others
    /\ length piece <= length first.
Proof.
  induction s as [|c s IH]; intros before piece skip.
  - exists (rev piece), []. split; [reflexivity|]. now rewrite length_rev.
  - cbn [splitLoop]. destruct skip as [|k]; [|apply IH].
    destruct (m before (c :: s)) as [[|k]|];
      try (destruct (IH (c :: before) (c :: piece) 0)
             as (first & others & -> & Hlen);
           exists first, others; split; [reflexivity | simpl in Hlen; lia]).
    eexists _, _. split; [reflexivity|]. now rewrite length_rev.
Qed.

(** The first sentence of a paragraph that is not empty is not empty:
    nothing comes before its first character for the look-behind. *)
Lemma sentences_some_piece (paragraph : jsstring) :
  paragraph <> [] ->
  Exists (fun sentence => sentence <> []) (split reAfterSentence paragraph).
Proof.
  destruct paragraph as [|c rest]; [intros H; now elim H | intros _].
  unfold split. cbn [splitLoop reAfterSentence].
  destruct (splitLoop_first_piece reAfterSentence rest [c] [c] 0)
    as (first & others & -> & Hlen).
  left. destruct first; [simpl in Hlen; lia | discriminate].
Qed.

End MoreSplitFacts.

(** ** More on the chunker *)

Section MoreChunkerFacts.

Import Chunker.

(** With a limit of 0 the fixed-width loop never advances. *)
Lemma sliceLoop_stuck (sentence : jsstring) :
  sentence <> [] ->
  forall fuel chunks, sliceLoop fuel sentence 0 0 chunks = None.
Proof.
  intros Hsome. induction fuel as [|fuel IH]; intros chunks; cbn [sliceLoop];
    destruct (Nat.ltb_spec 0 (length sentence)) as [_|Hlen];
    try reflexivity;
    try (destruct sentence; [now elim Hsome | simpl in Hlen; lia]).
  cbn [Nat.add]. apply IH.
Qed.

Lemma sentenceLoop_stuck (sentences : list jsstring) :
  Exists (fun sentence => sentence <> []) sentences ->
  forall chunks sentenceChunk,
    sentenceLoop 0 sentences chunks sentenceChunk = None.
Proof.
  induction 1 as [sentence rest Hsome | sentence rest _ IH];
    intros chunks sentenceChunk; cbn [sentenceLoop].
  - destruct (Nat.ltb_spec 0 (length sentenceChunk + length sentence + 1));
      [|lia].
    destruct (Nat.ltb_spec 0 (length sentence)) as [_|Hlen];
      [|destruct sentence; [now elim Hsome | simpl in Hlen; lia]].
    now rewrite sliceLoop_stuck.
  - destruct (Nat.ltb_spec 0 (length sentenceChunk + length sentence + 1));
      [|lia].
    destruct (Nat.ltb_spec 0 (length sentence)) as [Hlen|_]; [|apply IH].
    rewrite sliceLoop_stuck; [reflexivity|].
    destruct sentence; [simpl in Hlen; lia | discriminate].
Qed.

Lemma paragraphLoop_stuck (paragraphs : list jsstring) :
  Exists (fun paragraph => paragraph <> []) paragraphs ->
  forall chunks currentChunk,
    paragraphLoop 0 paragraphs chunks currentChunk = None.
Proof.
  induction 1 as [paragraph rest Hsome | paragraph rest _ IH];
    intros chunks currentChunk; cbn [paragraphLoop].
  - destruct (Nat.ltb_spec 0 (length currentChunk + length paragraph + 2));
      [|lia].
    destruct (Nat.ltb_spec 0 (length paragraph)) as [_|Hlen];
      [|destruct paragraph; [now elim Hsome | simpl in Hlen; lia]].
    now rewrite sentenceLoop_stuck by now apply sentences_some_piece.
  - destruct (Nat.ltb_spec 0 (length currentChunk + length paragraph + 2));
      [|lia].
    destruct (Nat.ltb_spec 0 (length paragraph)) as [Hlen|_]; [|apply IH].
    rewrite sentenceLoop_stuck; [reflexivity|].
    apply sentences_some_piece. destruct paragraph; [simpl in Hlen; lia | discriminate].
Qed.

(** X2. With [maxChunkSize] 0, [chunkContent] does not return on any
    text that holds a character other than a newline: the fixed-width
    loop adds 0 to its index for ever. *)
Theorem chunkContent_zero_limit (content : jsstring) :
  existsb (fun c => negb (isNewline c)) content = true ->
  chunkContent content 0 = None.
Proof.
  intros Hsome. unfold chunkContent.
  destruct (Nat.leb_spec (length content) 0) as [Hlen|_].
  - destruct content; [discriminate Hsome | simpl in Hlen; lia].
  - now rewrite paragraphLoop_stuck by now apply paragraphs_some_piece.
Qed.

(** X3. When the text is over the limit and its first paragraph is
    within the limit but not with its separator (its length is
    [maxChunkSize - 1] or [maxChunkSize]), the first chunk returned is the
    empty string: the chunk held so far is pushed though nothing is in
    it. *)
Theorem chunkContent_empty_first_chunk (content paragraph : jsstring)
    (rest : list jsstring) (maxChunkSize : nat) :
  0 < maxChunkSize ->
  maxChunkSize < length content ->
  split reBlankLines content = paragraph :: rest ->
  length paragraph <= maxChunkSize < length paragraph + 2 ->
  exists others, chunkContent content maxChunkSize = Some ([] :: others).
Proof.
  intros Hpos Hlong Hsplit [Hfits Hover]. unfold chunkContent.
  destruct (Nat.leb_spec (length content) maxChunkSize); [lia|].
  rewrite Hsplit. cbn [paragraphLoop length Nat.add].
  destruct (Nat.ltb_spec maxChunkSize (length paragraph + 2)); [|lia].
  destruct (Nat.ltb_spec maxChunkSize (length paragraph)); [lia|].
  edestruct (paragraphLoop_handsOn maxChunkSize Hpos rest)
    as (pushed & held & Hrun & _).
  rewrite Hrun.
  destruct (0 <? length held); eexists; reflexivity.
Qed.

End MoreChunkerFacts.

Lemma chunkContent_within_two_witness :
  0 < 10
  /\ exists chunks,
       Chunker.chunkContent Samples.nineThenOne 10 = Some chunks
       /\ Forall (fun chunk => length chunk <= 10 + 2) chunks.
Proof.
  assert (H : 0 < 10) by lia.
  split; [exact H | exact (chunkContent_within_two Samples.nineThenOne 10 H)].
Defined.

Lemma chunkContent_zero_limit_witness :
  existsb (fun c => negb (isNewline c)) (str "a") = true
  /\ Chunker.chunkContent (str "a") 0 = None.
Proof.
  split; [reflexivity | exact (chunkContent_zero_limit (str "a") eq_refl)].
Defined.

Lemma chunkContent_empty_first_chunk_witness :
  exists others, Chunker.chunkContent Samples.nineThenOne 10 = Some ([] :: others).
Proof.
  apply (chunkContent_empty_first_chunk Samples.nineThenOne (str "aaa bbb c")
           [str "d"] 10).
  - lia.
  - vm_compute. lia.
  - reflexivity.
  - vm_compute. lia.
Defined.

(** ** More on the language sampler *)

Section MoreSamplerFacts.

Import LanguageDetection.

Lemma eqb_false (a b : jsstring) : eqb a b = false -> a <> b.
Proof. unfold eqb. now destruct (list_eq_dec N.eq_dec a b). Qed.

Lemma eqb_true (a b : jsstring) : eqb a b = true -> a = b.
Proof. unfold eqb. now destruct (list_eq_dec N.eq_dec a b). Qed.

Lemma eqb_refl (a : jsstring) : eqb a a = true.
Proof. unfold eqb. now destruct (list_eq_dec N.eq_dec a a). Qed.

Lemma lookup_In (m : list (jsstring * jsstring)) (key value : jsstring) :
  lookup m key = Some value -> In value (map snd m).
Proof.
  induction m as [|[k v] m IH]; simpl; [discriminate|].
  destruct (eqb k key); [intros [= ->]; now left | right; now apply IH].
Qed.

(** X4. The sample handed to the detector is never longer than the text,
    nor than 1802 characters. *)
Theorem sampleText_bounded (text : jsstring) :
  length (sampleText text) <= Nat.min (length text) 1802.
Proof.
  rewrite sampleText_policy.
  destruct (Nat.le_gt_cases (length text) 2000) as [Hshort|Hlong].
  - unfold policySample.
    destruct (Nat.leb_spec (length text) 1000); [lia|].
    destruct (Nat.leb_spec (length text) 2000); [|lia].
    rewrite length_firstn. lia.
  - destruct (policySample_long text Hlong) as [-> _]. lia.
Qed.

Variable franc : option (jsstring -> outcome jsstring).

(** X5. A text of at most 1000 characters that has fewer than 20 once
    trimmed and its runs of white space made single spaces is answered
    [unknown], whatever the detector would say. *)
Theorem detectLanguage_short_text (text : jsstring) :
  length text <= 1000 ->
  length (replaceAll reSpaces (str " ") (trim text)) < 20 ->
  detectLanguage franc text = str "unknown".
Proof.
  intros Hlen Hshort. unfold detectLanguage.
  destruct (eqb (trim text) []); [reflexivity|].
  rewrite sampleText_policy. unfold policySample.
  destruct (Nat.leb_spec (length text) 1000); [|lia].
  unfold francDetect. destruct franc as [detect|]; [|reflexivity].
  now destruct (Nat.ltb_spec
                  (length (replaceAll reSpaces (str " ") (trim text))) 20);
    [|lia].
Qed.

(** X6. [detectLanguage] never answers [und]: that code becomes
    [unknown], and no name of the table is [und]. *)
Theorem detectLanguage_never_und (text : jsstring) :
  detectLanguage franc text <> str "und".
Proof.
  unfold detectLanguage.
  destruct (eqb (trim text) []); [discriminate|].
  generalize (francDetect franc (sampleText text)). intros langCode.
  unfold languageName.
  destruct (eqb langCode (str "und")) eqn:Hund; [discriminate|].
  apply eqb_false in Hund.
  destruct (lookup languageMap langCode) as [[|c name]|] eqn:Hlookup;
    try assumption.
  apply lookup_In in Hlookup.
  assert (Hnames : forallb (fun name => negb (eqb name (str "und")))
                     (map snd languageMap) = true) by (vm_compute; reflexivity).
  rewrite forallb_forall in Hnames. specialize (Hnames _ Hlookup).
  apply eqb_false. now destruct (eqb (c :: name) (str "und")).
Qed.

(** X7. When [franc] is not a function, or throws on every text, the
    answer is [unknown] for every text. *)
Theorem detectLanguage_detector_down (text : jsstring) :
  match franc with
  | Some detect => forall sample, exists message, detect sample = Throw message
  | None => True
  end ->
  detectLanguage franc text = str "unknown".
Proof.
  intros Hdown. unfold detectLanguage.
  destruct (eqb (trim text) []); [reflexivity|].
  unfold francDetect. destruct franc as [detect|]; [|reflexivity].
  destruct (length _ <? 20); [reflexivity|].
  now destruct (Hdown (replaceAll reSpaces (str " ") (trim (sampleText text))))
    as (message & ->).
Qed.

End MoreSamplerFacts.

Lemma detectLanguage_short_text_witness :
  length (str "a") <= 1000
  /\ length (replaceAll reSpaces (str " ") (trim (str "a"))) < 20
  /\ LanguageDetection.detectLanguage (Some (fun _ => Ok (str "eng"))) (str "a")
     = str "unknown".
Proof.
  assert (H1 : length (str "a") <= 1000) by (vm_compute; lia).
  assert (H2 : length (replaceAll reSpaces (str " ") (trim (str "a"))) < 20)
    by (vm_compute; lia).
  split; [exact H1|]. split; [exact H2|].
  exact (detectLanguage_short_text (Some (fun _ => Ok (str "eng"))) (str "a") H1 H2).
Defined.

Lemma detectLanguage_detector_down_witness :
  (forall sample : jsstring,
      exists message, @Throw jsstring (str "franc failed") = Throw message)
  /\ LanguageDetection.detectLanguage
       (Some (fun _ => Throw (str "franc failed")))
       (str "This is a clearly written English sentence with enough length.")
     = str "unknown".
Proof.
  assert (H : forall sample : jsstring,
             exists message, @Throw jsstring (str "franc failed") = Throw message)
    by (intros _; eexists; reflexivity).
  split; [exact H|].
  exact (detectLanguage_detector_down
           (Some (fun _ => Throw (str "franc failed")))
           (str "This is a clearly written English sentence with enough length.")
           H).
Defined.

(** ** More on the PDF engine *)

Section MorePdfFacts.

Import PdfUtils.

Lemma forallb_dropWhile (p q : N -> bool) (s : jsstring) :
  forallb p s = true -> forallb p (dropWhile q s) = true.
Proof.
  induction s as [|c s IH]; simpl; [reflexivity|].
  intros H. destruct (q c); [|exact H].
  apply andb_true_iff in H as [_ H]. now apply IH.
Qed.

Lemma forallb_trim (p : N -> bool) (s : jsstring) :
  forallb p s = true -> forallb p (trim s) = true.
Proof.
  intros H. unfold trim, trimEnd, trimStart.
  rewrite forallb_rev. apply forallb_dropWhile.
  rewrite forallb_rev. now apply forallb_dropWhile.
Qed.

(** Making runs of white space single spaces keeps the other
    characters. *)
Lemma collapse_visible (s : jsstring) :
  forall before skip,
    forallb isSpace (firstn skip s) = true ->
    visible (replaceLoop reSpaces (str " ") before skip s) = visible s.
Proof.
  induction s as [|c s IH]; intros before skip Hskip; [reflexivity|].
  destruct skip as [|k]; cbn [replaceLoop].
  - unfold reSpaces. cbn [takeWhile].
    destruct (isSpace c) eqn:Hc; cbn [length].
    + rewrite visible_app, IH
        by (rewrite takeWhile_prefix; apply takeWhile_all).
      rewrite (visible_cons c s). unfold visible at 1 3. cbn [str map
        list_ascii_of_string filter]. now rewrite Hc.
    + rewrite (visible_cons c), (visible_cons c s), IH by reflexivity.
      reflexivity.
  - cbn [firstn forallb] in Hskip. apply andb_true_iff in Hskip as [Hc Hk].
    rewrite IH by assumption. rewrite (visible_cons c s).
    unfold visible at 2. cbn [filter]. now rewrite Hc.
Qed.

Lemma visible_trim_some (s : jsstring) : trim s <> [] <-> visible s <> [].
Proof.
  split; intros H Hnil; apply H.
  - now apply trim_blank, visible_nil_spaces.
  - apply visible_spaces. now apply trim_blank.
Qed.

(** X9. The clean-up of the text of the pages leaves one line: once the
    runs of white space are single spaces there is no newline for the
    second replacement to find, so the result is the trimmed text with
    single spaces, and holds no newline. *)
Theorem cleanUp_one_line (extractedText : jsstring) :
  cleanUp extractedText = trim (replaceAll reSpaces (str " ") extractedText)
  /\ existsb isNewline (cleanUp extractedText) = false.
Proof.
  split; [apply cleanUp_collapse|].
  rewrite cleanUp_collapse.
  assert (H : forallb (fun c => negb (isNewline c))
                (trim (replaceAll reSpaces (str " ") extractedText)) = true)
    by (apply forallb_trim, collapse_no_newline).
  destruct (existsb isNewline _) eqn:E; [|reflexivity].
  apply existsb_exists in E as (c & Hin & Hc).
  rewrite forallb_forall in H. specialize (H c Hin). now rewrite Hc in H.
Qed.

(** X11. The hex decoder of the byte scan emits printable ASCII only
    (codes 32 to 126), and at most one character for two digits. *)
Theorem decodeHex_printable (hexString : jsstring) :
  forallb (fun c => (32 <=? c)%N && (c <=? 126)%N) (decodeHex hexString) = true
  /\ 2 * length (decodeHex hexString) <= length hexString.
Proof.
  assert (Hlen : length hexString <= length hexString) by lia.
  revert Hlen. generalize (length hexString) at 2. intros n.
  revert hexString. induction n as [|n IH]; intros hexString Hlen.
  - destruct hexString; [split; [reflexivity | simpl; lia] | simpl in Hlen; lia].
  - destruct hexString as [|a [|b rest]];
      try (split; [reflexivity | simpl; lia]).
    destruct (IH rest) as [Hprintable Hhalf]; [simpl in Hlen; lia|].
    cbn [decodeHex]. cbv zeta. cbn [length] in Hlen |- *.
    destruct ((32 <=? 16 * hexValue a + hexValue b)%N
              && (16 * hexValue a + hexValue b <=? 126)%N) eqn:E.
    + cbn [app forallb length]. rewrite E, Hprintable.
      split; [reflexivity | lia].
    + cbn [app]. split; [assumption | lia].
Qed.

Lemma execLoop_wordPairs (s : jsstring) :
  forall skip, Forall (fun word => word <> []) (execLoop reWordPair skip s).
Proof.
  induction s as [|c s IH]; intros skip; [constructor|].
  cbn [execLoop]. destruct skip as [|k]; [|apply IH].
  destruct (reWordPair (c :: s)) as [[[|k] group]|] eqn:E; try apply IH.
  constructor; [|apply IH].
  unfold reWordPair in E.
  destruct (skipn _ (c :: s)) as [|d rest]; [discriminate|].
  destruct (_ && _); [|discriminate].
  injection E as _ <-. now destruct (isLetter c).
Qed.

Lemma join_some (sep : jsstring) (words : list jsstring) :
  words <> [] -> Forall (fun word => word <> []) words -> join sep words <> [].
Proof.
  destruct words as [|word rest]; [intros H; now elim H|].
  intros _ Hall. inversion Hall as [|? ? Hword _]; subst.
  destruct word; [now elim Hword|].
  destruct rest; discriminate.
Qed.

Variable P : Platform.

(** X12. The byte scan never throws and never answers the empty string:
    it gives the text found, or the pairs of words found, or one of its
    two messages. *)
Theorem extractBasicTextFromPdf_some_text (arrayBuffer : bytes) :
  exists basicText,
    extractBasicTextFromPdf P arrayBuffer = Ok basicText /\ basicText <> [].
Proof.
  unfold extractBasicTextFromPdf.
  destruct (decode P arrayBuffer) as [pdfData|message]; cbn [bind tryCatch];
    [|eexists; split; [reflexivity | discriminate]].
  match goal with
  | |- context [if 0 <? length ?t then _ else _] =>
      destruct (Nat.ltb_spec 0 (length t)) as [Hsome|_]
  end; cbn [tryCatch].
  - eexists; split; [reflexivity|].
    intros Hnil. rewrite Hnil in Hsome. simpl in Hsome. lia.
  - destruct (Nat.ltb_spec 0 (length (execAll reWordPair pdfData)))
      as [Hwords|_]; cbn [tryCatch].
    + eexists; split; [reflexivity|].
      apply join_some; [|apply execLoop_wordPairs].
      intros Hnil. rewrite Hnil in Hwords. simpl in Hwords. lia.
    + eexists; split; [reflexivity | discriminate].
Qed.

(** X10. When pdf.js opens the document but its pages give fewer than 50
    characters once trimmed, the page text is not returned: the answer
    is what the byte scan recovers if that is over 100 characters, and
    the message about scanned documents if not. *)
Theorem extractTextFromPdf_little_text (arrayBuffer : bytes)
    (pdfDocument : PdfDocument) :
  getDocument P arrayBuffer = Ok pdfDocument ->
  length (trim (pageLoop (numPages pdfDocument) 1 (pages pdfDocument)
                  (metadataHeader pdfDocument))) < 50 ->
  exists basicText,
    extractBasicTextFromPdf P arrayBuffer = Ok basicText
    /\ extractTextFromPdf P arrayBuffer
       = Ok (if 100 <? length (trim basicText)
             then basicText
             else scannedMessage (numPages pdfDocument)).
Proof.
  intros Hload Hlittle.
  destruct (extractBasicTextFromPdf_returns P arrayBuffer) as (basicText & Hbasic).
  exists basicText. split; [assumption|].
  unfold extractTextFromPdf. rewrite Hload. cbn [bind tryCatch].
  destruct (Nat.ltb_spec
              (length (trim (pageLoop (numPages pdfDocument) 1
                               (pages pdfDocument) (metadataHeader pdfDocument))))
              50); [|lia].
  rewrite Hbasic. cbn [bind].
  destruct (100 <? length (trim basicText)); [reflexivity|].
  now destruct (Nat.ltb_spec
                  (length (trim (pageLoop (numPages pdfDocument) 1
                                   (pages pdfDocument)
                                   (metadataHeader pdfDocument))))
                  100); [|lia].
Qed.

(** X8. Whatever pdf.js and the decoder do, [extractTextFromPdf] neither
    throws nor answers the empty string. *)
Theorem extractTextFromPdf_some_text (arrayBuffer : bytes) :
  exists shown, extractTextFromPdf P arrayBuffer = Ok shown /\ shown <> [].
Proof.
  destruct (extractBasicTextFromPdf_returns P arrayBuffer) as (basicText & Hbasic).
  unfold extractTextFromPdf. rewrite Hbasic.
  destruct (getDocument P arrayBuffer) as [pdfDocument|message];
    cbn [bind tryCatch].
  - set (extractedText := pageLoop (numPages pdfDocument) 1 (pages pdfDocument)
                            (metadataHeader pdfDocument)).
    destruct (Nat.ltb_spec (length (trim extractedText)) 50) as [Hlittle|Hlong].
    + destruct (Nat.ltb_spec 100 (length (trim basicText))) as [Hbasictext|_].
      * eexists; split; [reflexivity|]. intros ->.
        vm_compute in Hbasictext. lia.
      * destruct (Nat.ltb_spec (length (trim extractedText)) 100); [|lia].
        eexists; split; [reflexivity|]. unfold scannedMessage. discriminate.
    + eexists; split; [reflexivity|].
      rewrite cleanUp_collapse. apply visible_trim_some.
      unfold replaceAll. rewrite collapse_visible by reflexivity.
      apply visible_trim_some. intros Hnil. rewrite Hnil in Hlong.
      simpl in Hlong. lia.
  - destruct (50 <? length (trim basicText)).
    + eexists; split; [reflexivity|]. unfold fallbackNote.
      intros H. apply app_eq_nil in H as [_ H]. discriminate H.
    + eexists; split; [reflexivity|]. unfold failureMessage. discriminate.
Qed.

End MorePdfFacts.

Lemma extractTextFromPdf_little_text_witness :
  getDocument MoreSamples.scanPlatform Samples.textRunBuffer
  = Ok MoreSamples.onePageLost
  /\ exists basicText,
       PdfUtils.extractBasicTextFromPdf MoreSamples.scanPlatform
         Samples.textRunBuffer = Ok basicText
       /\ PdfUtils.extractTextFromPdf MoreSamples.scanPlatform
            Samples.textRunBuffer
          = Ok (if 100 <? length (trim basicText)
                then basicText
                else PdfUtils.scannedMessage 1).
Proof.
  split; [reflexivity|].
  apply (extractTextFromPdf_little_text MoreSamples.scanPlatform
           Samples.textRunBuffer MoreSamples.onePageLost eq_refl).
  vm_compute. lia.
Defined.

(** ** More on the dispatcher and the extractors *)

Section MoreDispatcherFacts.

Import FileProcessors.

Lemma orElse_some (x fallback : jsstring) :
  fallback <> [] -> orElse x fallback <> [].
Proof. intros H. destruct x; [exact H | discriminate]. Qed.

Lemma reDot_dot (before s : jsstring) (c : N) :
  reDot before (c :: s) = if (c =? 46)%N then Some 1 else None.
Proof.
  unfold reDot. destruct c as [|p]; [reflexivity|].
  repeat (destruct p as [p|p|]; try reflexivity).
Qed.

Lemma last_cons_some (x : jsstring) (l : list jsstring) (d : jsstring) :
  l <> [] -> last (x :: l) d = last l d.
Proof. destruct l; [intros H; now elim H | reflexivity]. Qed.

(** The last piece of a name split at its dots. *)
Lemma splitLoop_dot_last (s : jsstring) :
  forall before piece,
    forallb (fun c => negb (c =? 46)%N) piece = true ->
    let extension := last (splitLoop reDot before piece 0 s) [] in
    forallb (fun c => negb (c =? 46)%N) extension = true
    /\ exists prefix,
         rev piece ++ s = prefix ++ extension
         /\ (prefix = [] \/ exists stem, prefix = stem ++ [46%N]).
Proof.
  induction s as [|c s IH]; intros before piece Hpiece; cbn [splitLoop].
  - cbn [last]. split; [now rewrite forallb_rev|].
    exists []. split; [now rewrite app_nil_r | now left].
  - rewrite reDot_dot. destruct (N.eqb_spec c 46) as [->|Hc].
    + rewrite last_cons_some by apply splitLoop_nonempty.
      destruct (IH (46%N :: before) [] eq_refl) as (Hext & prefix & Hcat & Hend).
      split; [exact Hext|].
      exists (rev piece ++ 46%N :: prefix). split.
      * cbn [rev app] in Hcat. rewrite <- app_assoc. cbn [app].
        now rewrite <- Hcat.
      * right. destruct Hend as [->|(stem & ->)].
        -- now exists (rev piece).
        -- exists (rev piece ++ 46%N :: stem). now rewrite <- app_assoc.
    + destruct (IH (c :: before) (c :: piece)) as (Hext & prefix & Hcat & Hend).
      { cbn [forallb]. rewrite Hpiece, andb_true_r.
        now destruct (N.eqb_spec c 46). }
      split; [exact Hext|]. exists prefix. split; [|exact Hend].
      cbn [rev] in Hcat. now rewrite <- app_assoc in Hcat.
Qed.

Variable P : Platform.

(** X16. The extension the dispatcher reads holds no dot and ends the
    lower-cased name; what comes before it is empty (a name without a
    dot is its own extension) or ends with a dot. *)
Theorem extensionOf_suffix (file : File) :
  forallb (fun c => negb (c =? 46)%N) (extensionOf P file) = true
  /\ exists prefix,
       toLowerCase P (file_name file) = prefix ++ extensionOf P file
       /\ (prefix = [] \/ exists stem, prefix = stem ++ [46%N]).
Proof.
  exact (splitLoop_dot_last (toLowerCase P (file_name file)) [] [] eq_refl).
Qed.

(** [extractFromDoc] never throws and never answers the empty string:
    when nothing legible is left it answers one of its messages. *)
Lemma extractFromDoc_returns (file : File) :
  exists shown, extractFromDoc P file = Ok shown /\ shown <> [].
Proof.
  assert (Hraw : forall arrayBuffer,
             exists shown,
               tryCatch
                 (decoded <- decode P arrayBuffer ;;
                  Ok (orElse
                        (trim (replaceAll reSpaces (str " ")
                                 (map (fun c => if isPlainChar c then c else 32%N)
                                    (filter (fun c => negb (isBinaryArtifact c))
                                       decoded))))
                        (str "Limited text could be extracted from this DOC file. Consider converting to DOCX for better results.")))
                 (fun _ =>
                    Ok (str "Could not extract text from DOC file. Consider converting to DOCX for better results."))
               = Ok shown /\ shown <> []).
  { intros arrayBuffer.
    destruct (decode P arrayBuffer) as [decoded|message]; cbn [bind tryCatch];
      eexists; (split; [reflexivity|]); [apply orElse_some|]; discriminate. }
  unfold extractFromDoc.
  destruct (file_arrayBuffer file) as [arrayBuffer|message]; cbn [bind tryCatch];
    [|eexists; split; [reflexivity | discriminate]].
  destruct (hasWordDocument P arrayBuffer); [|apply Hraw].
  destruct (extractRawText P arrayBuffer) as [value|message]; [|apply Hraw].
  cbn [tryCatch]. eexists; split; [reflexivity|].
  apply orElse_some; discriminate.
Qed.

Lemma formatJson_some (data : json) : formatJson data <> [].
Proof. destruct data; discriminate. Qed.

Lemma never_refused_routes (file : File) :
  (file_size file <= MAX_FILE_SIZE)%N ->
  match familyOf (file_type file) (extensionOf P file) with
  | PdfFile | DocFile | SpreadsheetFile | JsonFile =>
      exists result,
        extractTextFromFile P file = Ok result
        /\ fileName result = file_name file
        /\ text result <> []
  | _ => True
  end.
Proof.
  intros Hsize. unfold extractTextFromFile.
  destruct (N.ltb_spec MAX_FILE_SIZE (file_size file)); [lia|].
  unfold dispatch.
  destruct (familyOf (file_type file) (extensionOf P file)); try exact I.
  - (* PDF *)
    unfold extractPdf.
    destruct (file_arrayBuffer file) as [arrayBuffer|e]; cbn [bind tryCatch];
      [|eexists; repeat split; discriminate].
    destruct (PdfUtils.extractTextFromPdf P arrayBuffer) as [shown|e];
      cbn [bind tryCatch]; [|eexists; repeat split; discriminate].
    destruct (Nat.ltb_spec 50 (length (trim shown))) as [Hlong|_];
      cbn [tryCatch]; eexists; repeat split; try discriminate.
    cbn [text]. intros ->. vm_compute in Hlong. lia.
  - (* DOC *)
    destruct (extractFromDoc_returns file) as (shown & -> & Hsome).
    cbn [bind tryCatch]. eexists; repeat split. exact Hsome.
  - (* spreadsheet *)
    destruct (extractFromDoc_returns file) as (shown & -> & Hsome).
    cbn [bind tryCatch]. eexists; repeat split. discriminate.
  - (* JSON *)
    unfold extractFromJson.
    destruct (file_text file) as [content|e];
      [destruct (JSON_parse P content) as [data|]|];
      cbn [bind tryCatch]; eexists; repeat split; try discriminate.
    apply formatJson_some.
Qed.


Lemma rethrow_unsupported (file : File) (fileType fileExtension rest : jsstring) :
  rethrow P file fileType fileExtension (str "Unsupported file type: " ++ rest)
  = Throw (str "Unsupported file type: " ++ typeLabel P fileType fileExtension
           ++ str ". Please try with DOCX, TXT, HTML, or CSV files.").
Proof. reflexivity. Qed.

(** X14. Within the size limit, a file that matches no family is either
    returned as it is read, with type TEXT, which needs a MIME type that
    is empty or starts with [text/] and a text that is not blank, or
    refused with [Unsupported file type:], the MIME type (else the
    upper-cased extension, else [Unknown]) and the formats to try. *)
Theorem extractTextFromFile_unmatched (file : File) :
  (file_size file <= MAX_FILE_SIZE)%N ->
  familyOf (file_type file) (extensionOf P file) = Unmatched ->
  (exists content,
      file_text file = Ok content
      /\ trim content <> []
      /\ (file_type file = [] \/ startsWith (str "text/") (file_type file) = true)
      /\ extractTextFromFile P file
         = Ok {| text := content; type := str "TEXT";
                 fileName := file_name file |})
  \/ extractTextFromFile P file
     = Throw (str "Unsupported file type: "
              ++ typeLabel P (file_type file) (extensionOf P file)
              ++ str ". Please try with DOCX, TXT, HTML, or CSV files.").
Proof.
  intros Hsize Hfamily. unfold extractTextFromFile.
  destruct (N.ltb_spec MAX_FILE_SIZE (file_size file)); [lia|].
  unfold dispatch. rewrite Hfamily.
  destruct (eqb (file_type file) []) eqn:Hempty;
    [apply eqb_true in Hempty|];
    (destruct (startsWith (str "text/") (file_type file)) eqn:Htext;
     cbn [orb];
     [destruct (file_text file) as [content|e];
      [destruct (Nat.ltb_spec 0 (length (trim content))) as [Hsome|Hblank]|]
     | try (destruct (file_text file) as [content|e];
            [destruct (Nat.ltb_spec 0 (length (trim content)))
               as [Hsome|Hblank]|])]);
    cbn [tryCatch];
    try (right; apply rethrow_unsupported);
    left; exists content; repeat split; auto;
    intros Hnil; rewrite Hnil in Hsome; simpl in Hsome; lia.
Qed.

(** X15. Every error [extractTextFromFile] raises is one of its own: the
    size message, or a message that starts with [Unsupported file
    type: ], [The file '] or [Failed to process ].  What an extractor or
    a read threw reaches the caller only inside the last one. *)
Theorem extractTextFromFile_messages (file : File) (thrown : jsstring) :
  extractTextFromFile P file = Throw thrown ->
  thrown = sizeMessage
  \/ startsWith (str "Unsupported file type: ") thrown = true
  \/ startsWith (str "The file '") thrown = true
  \/ startsWith (str "Failed to process ") thrown = true.
Proof.
  unfold extractTextFromFile.
  destruct (N.ltb MAX_FILE_SIZE (file_size file));
    [intros [= <-]; now left|].
  destruct (dispatch P file (file_type file) (extensionOf P file))
    as [result|message]; cbn [tryCatch]; [discriminate|].
  unfold rethrow.
  repeat match goal with
         | |- context [if ?b then _ else _] => destruct b
         end;
    intros [= <-]; right; auto.
Qed.

(** X17. In the item of a JSON array, a nested value (an object, an
    array or null) is shown by the first 100 characters of its
    serialization and nothing marks the cut; a primitive is shown in
    full, followed by [...] when it is over 100 characters. *)
Theorem itemEntry_marker (key : jsstring) (value : json) :
  itemEntry (key, value)
  = if isObjectType value
    then str "  " ++ key ++ str ": " ++ firstn 100 (stringify value) ++ nl
    else str "  " ++ key ++ str ": " ++ toStringValue value
         ++ (if 100 <? length (toStringValue value) then str "..." else [])
         ++ nl.
Proof.
  unfold itemEntry. destruct (isObjectType value); [|reflexivity].
  change 100%Z with (Z.of_nat 100). rewrite substring_prefix.
  destruct (Nat.ltb_spec 100 (length (firstn 100 (stringify value))))
    as [Hlong|_]; [|reflexivity].
  rewrite length_firstn in Hlong. lia.
Qed.

End MoreDispatcherFacts.


Lemma extractTextFromFile_unmatched_witness :
  (file_size MoreSamples.binaryFile <= FileProcessors.MAX_FILE_SIZE)%N
  /\ FileProcessors.familyOf (file_type MoreSamples.binaryFile)
       (FileProcessors.extensionOf Samples.examplePlatform MoreSamples.binaryFile)
     = FileProcessors.Unmatched
  /\ ((exists content,
          file_text MoreSamples.binaryFile = Ok content
          /\ trim content <> []
          /\ (file_type MoreSamples.binaryFile = []
              \/ startsWith (str "text/") (file_type MoreSamples.binaryFile) = true)
          /\ FileProcessors.extractTextFromFile Samples.examplePlatform
               MoreSamples.binaryFile
             = Ok {| FileProcessors.text := content;
                     FileProcessors.type := str "TEXT";
                     FileProcessors.fileName := file_name MoreSamples.binaryFile |})
      \/ FileProcessors.extractTextFromFile Samples.examplePlatform
           MoreSamples.binaryFile
         = Throw (str "Unsupported file type: "
                  ++ FileProcessors.typeLabel Samples.examplePlatform
                       (file_type MoreSamples.binaryFile)
                       (FileProcessors.extensionOf Samples.examplePlatform
                          MoreSamples.binaryFile)
                  ++ str ". Please try with DOCX, TXT, HTML, or CSV files.")).
Proof.
  assert (H : (file_size MoreSamples.binaryFile <= FileProcessors.MAX_FILE_SIZE)%N)
    by (vm_compute; discriminate).
  split; [exact H|]. split; [reflexivity|].
  exact (extractTextFromFile_unmatched Samples.examplePlatform
           MoreSamples.binaryFile H eq_refl).
Defined.

(** The sample that matches no family is refused by its MIME type. *)
Example extractTextFromFile_binary :
  FileProcessors.extractTextFromFile Samples.examplePlatform MoreSamples.binaryFile
  = Throw (str "Unsupported file type: application/octet-stream. Please try with DOCX, TXT, HTML, or CSV files.").
Proof. vm_compute. reflexivity. Qed.

Lemma extractTextFromFile_messages_witness :
  FileProcessors.extractTextFromFile Samples.examplePlatform Samples.brokenDocxFile
  = Throw (str "The file 'Report.DOCX' appears to be corrupted or invalid. Please check the file and try again.")
  /\ (str "The file 'Report.DOCX' appears to be corrupted or invalid. Please check the file and try again."
      = FileProcessors.sizeMessage
      \/ startsWith (str "Unsupported file type: ")
           (str "The file 'Report.DOCX' appears to be corrupted or invalid. Please check the file and try again.") = true
      \/ startsWith (str "The file '")
           (str "The file 'Report.DOCX' appears to be corrupted or invalid. Please check the file and try again.") = true
      \/ startsWith (str "Failed to process ")
           (str "The file 'Report.DOCX' appears to be corrupted or invalid. Please check the file and try again.") = true).
Proof.
  assert (H : FileProcessors.extractTextFromFile Samples.examplePlatform
                Samples.brokenDocxFile
              = Throw (str "The file 'Report.DOCX' appears to be corrupted or invalid. Please check the file and try again."))
    by (vm_compute; reflexivity).
  split; [exact H|].
  exact (extractTextFromFile_messages Samples.examplePlatform
           Samples.brokenDocxFile _ H).
Defined.

(** ** The history and preferences store *)

Section StoreFacts.

Import LocalStorage.

Lemma filter_changed {A : Type} (keep : A -> bool) (l : list A) :
  negb (length (filter keep l) =? length l)
  = existsb (fun x => negb (keep x)) l.
Proof.
  assert (Hle : forall l', length (filter keep l') <= length l')
    by (intros l'; apply filter_length_le).
  induction l as [|x l IH]; [reflexivity|].
  cbn [filter existsb]. destruct (keep x); cbn [negb orb length].
  - exact IH.
  - specialize (Hle l).
    now destruct (Nat.eqb_spec (length (filter keep l)) (S (length l))); [lia|].
Qed.

Lemma existsb_double_negation {A : Type} (test : A -> bool) (l : list A) :
  existsb (fun x => negb (negb (test x))) l = existsb test l.
Proof.
  induction l as [|x l IH]; [reflexivity|].
  cbn [existsb]. now rewrite IH, negb_involutive.
Qed.

Lemma filter_unchanged {A : Type} (keep : A -> bool) (l : list A) :
  existsb (fun x => negb (keep x)) l = false -> filter keep l = l.
Proof.
  induction l as [|x l IH]; [reflexivity|].
  cbn [filter existsb]. destruct (keep x); cbn [negb orb]; [|discriminate].
  intros H. now rewrite IH.
Qed.

Variable b : Browser.
Hypothesis inBrowser : hasWindow b = true.
Hypothesis writable : writeError b = None.

Lemma setHistory_ok (history : list SummaryHistoryItem) :
  exists b',
    setHistory b history = Ok b'
    /\ getSummaryHistory b' = history
    /\ getUserPreferences b' = getUserPreferences b
    /\ hasWindow b' = true /\ writeError b' = None.
Proof.
  unfold setHistory. rewrite writable. eexists. split; [reflexivity|].
  unfold getSummaryHistory, getUserPreferences.
  cbn [hasWindow historySlot preferencesSlot writeError].
  rewrite inBrowser. repeat split.
Qed.

Lemma save_spec (item : SummaryHistoryItem) (newId now : jsstring) :
  exists b',
    saveSummaryToHistory b item newId now = Ok (stamp item newId now, b')
    /\ getSummaryHistory b'
       = firstn 20 (stamp item newId now :: getSummaryHistory b)
    /\ getUserPreferences b' = getUserPreferences b
    /\ hasWindow b' = true /\ writeError b' = None.
Proof.
  unfold saveSummaryToHistory. rewrite inBrowser. cbn [negb].
  destruct (setHistory_ok
              (firstn 20 (stamp item newId now :: getSummaryHistory b)))
    as (b' & -> & Hget & Hprefs & Hwindow & Hwrite).
  cbn [bind]. now exists b'.
Qed.

Lemma delete_spec (id_ : jsstring) :
  exists b',
    deleteSummaryFromHistory b id_
    = Ok (existsb (fun item => eqb (id item) id_) (getSummaryHistory b), b')
    /\ getSummaryHistory b'
       = filter (fun item => negb (eqb (id item) id_)) (getSummaryHistory b).
Proof.
  unfold deleteSummaryFromHistory. rewrite inBrowser. cbn [negb].
  rewrite filter_changed.
  pose proof (existsb_double_negation (fun item => eqb (id item) id_)
                (getSummaryHistory b)) as Hsame.
  destruct (existsb (fun item => negb (negb (eqb (id item) id_)))
              (getSummaryHistory b)) eqn:Hfound; rewrite <- Hsame.
  - destruct (setHistory_ok
                (filter (fun item => negb (eqb (id item) id_))
                   (getSummaryHistory b)))
      as (b' & -> & Hget & _).
    cbn [bind]. now exists b'.
  - exists b. split; [reflexivity|].
    now rewrite (filter_unchanged _ _ Hfound).
Qed.

End StoreFacts.

Section StoreProperties.

Import LocalStorage.

(** X18. In a browser whose store can be written, saving puts the new
    item first and keeps the 20 newest: the history read afterwards is
    the first 20 of the new item followed by the history read before (an
    unreadable history counts as empty), whatever length that had.  The
    preferences are not touched. *)
Theorem saveSummaryToHistory_newest_first (b : Browser)
    (item : SummaryHistoryItem) (newId now : jsstring) :
  hasWindow b = true ->
  writeError b = None ->
  exists b',
    saveSummaryToHistory b item newId now = Ok (stamp item newId now, b')
    /\ getSummaryHistory b'
       = firstn 20 (stamp item newId now :: getSummaryHistory b)
    /\ length (getSummaryHistory b') <= 20
    /\ getUserPreferences b' = getUserPreferences b.
Proof.
  intros Hwindow Hwrite.
  destruct (save_spec b Hwindow Hwrite item newId now)
    as (b' & Hsave & Hget & Hprefs & _).
  exists b'. repeat split; try assumption.
  rewrite Hget, length_firstn. lia.
Qed.

(** X19. Deleting by id removes every item with that id and nothing
    else, keeps the order of the others, and answers whether there was
    one: the history read afterwards is the history read before without
    the items of that id. *)
Theorem deleteSummaryFromHistory_removes (b : Browser) (id_ : jsstring) :
  hasWindow b = true ->
  writeError b = None ->
  exists b',
    deleteSummaryFromHistory b id_
    = Ok (existsb (fun item => eqb (id item) id_) (getSummaryHistory b), b')
    /\ getSummaryHistory b'
       = filter (fun item => negb (eqb (id item) id_)) (getSummaryHistory b)
    /\ Forall (fun item => id item <> id_) (getSummaryHistory b').
Proof.
  intros Hwindow Hwrite.
  destruct (delete_spec b Hwindow Hwrite id_) as (b' & Hdelete & Hget).
  exists b'. repeat split; try assumption.
  rewrite Hget. apply Forall_forall. intros item Hin.
  apply filter_In in Hin as [_ Hkeep]. apply eqb_false.
  now destruct (eqb (id item) id_).
Qed.

(** X20. Saving and then deleting the new id gives back the history as
    it was, when it had fewer than 20 items and none with that id. *)
Theorem save_then_delete (b : Browser) (item : SummaryHistoryItem)
    (newId now : jsstring) :
  hasWindow b = true ->
  writeError b = None ->
  length (getSummaryHistory b) < 20 ->
  existsb (fun old => eqb (id old) newId) (getSummaryHistory b) = false ->
  exists saved b1 b2,
    saveSummaryToHistory b item newId now = Ok (saved, b1)
    /\ deleteSummaryFromHistory b1 newId = Ok (true, b2)
    /\ getSummaryHistory b2 = getSummaryHistory b.
Proof.
  intros Hwindow Hwrite Hroom Hfresh.
  destruct (save_spec b Hwindow Hwrite item newId now)
    as (b1 & Hsave & Hget1 & _ & Hwindow1 & Hwrite1).
  destruct (delete_spec b1 Hwindow1 Hwrite1 newId) as (b2 & Hdelete & Hget2).
  exists (stamp item newId now), b1, b2.
  rewrite firstn_all2 in Hget1 by (simpl; lia).
  rewrite Hget1 in Hdelete, Hget2.
  cbn [existsb filter id stamp] in Hdelete, Hget2.
  rewrite eqb_refl in Hdelete, Hget2. cbn [orb negb] in Hdelete, Hget2.
  repeat split; try assumption.
  rewrite Hget2. apply filter_unchanged. rewrite <- Hfresh.
  apply (existsb_double_negation (fun old => eqb (id old) newId)).
Qed.

(** X21. Preferences round trip: what [saveUserPreferences] wrote is
    what [getUserPreferences] reads next, and the history is not
    touched. *)
Theorem preferences_round_trip (b : Browser) (preferences : UserPreferences) :
  hasWindow b = true ->
  writeError b = None ->
  exists b',
    saveUserPreferences b preferences = Ok b'
    /\ getUserPreferences b' = preferences
    /\ getSummaryHistory b' = getSummaryHistory b.
Proof.
  intros Hwindow Hwrite.
  unfold saveUserPreferences, setPreferences. rewrite Hwindow, Hwrite.
  cbn [negb]. eexists. split; [reflexivity|].
  unfold getUserPreferences, getSummaryHistory.
  cbn [hasWindow historySlot preferencesSlot]. rewrite Hwindow.
  split; reflexivity.
Qed.

End StoreProperties.

Lemma saveSummaryToHistory_newest_first_witness :
  exists b',
    LocalStorage.saveSummaryToHistory MoreSamples.oneItemBrowser
      MoreSamples.firstItem (str "b2") (str "2024-01-02T00:00:00.000Z")
    = Ok (LocalStorage.stamp MoreSamples.firstItem (str "b2")
            (str "2024-01-02T00:00:00.000Z"), b')
    /\ LocalStorage.getSummaryHistory b'
       = firstn 20
           (LocalStorage.stamp MoreSamples.firstItem (str "b2")
              (str "2024-01-02T00:00:00.000Z")
            :: LocalStorage.getSummaryHistory MoreSamples.oneItemBrowser)
    /\ length (LocalStorage.getSummaryHistory b') <= 20
    /\ LocalStorage.getUserPreferences b'
       = LocalStorage.getUserPreferences MoreSamples.oneItemBrowser.
Proof.
  exact (saveSummaryToHistory_newest_first MoreSamples.oneItemBrowser
           MoreSamples.firstItem (str "b2") (str "2024-01-02T00:00:00.000Z")
           eq_refl eq_refl).
Defined.

Lemma deleteSummaryFromHistory_removes_witness :
  exists b',
    LocalStorage.deleteSummaryFromHistory MoreSamples.oneItemBrowser (str "a1")
    = Ok (true, b')
    /\ LocalStorage.getSummaryHistory b' = []
    /\ Forall (fun item => LocalStorage.id item <> str "a1")
         (LocalStorage.getSummaryHistory b').
Proof.
  exact (deleteSummaryFromHistory_removes MoreSamples.oneItemBrowser (str "a1")
           eq_refl eq_refl).
Defined.

Lemma save_then_delete_witness :
  exists saved b1 b2,
    LocalStorage.saveSummaryToHistory MoreSamples.oneItemBrowser
      MoreSamples.firstItem (str "b2") (str "2024-01-02T00:00:00.000Z")
    = Ok (saved, b1)
    /\ LocalStorage.deleteSummaryFromHistory b1 (str "b2") = Ok (true, b2)
    /\ LocalStorage.getSummaryHistory b2 = [MoreSamples.firstItem].
Proof.
  apply (save_then_delete MoreSamples.oneItemBrowser MoreSamples.firstItem
           (str "b2") (str "2024-01-02T00:00:00.000Z") eq_refl eq_refl).
  - vm_compute. lia.
  - reflexivity.
Defined.

Lemma preferences_round_trip_witness :
  exists b',
    LocalStorage.saveUserPreferences MoreSamples.oneItemBrowser
      MoreSamples.darkPreferences = Ok b'
    /\ LocalStorage.getUserPreferences b' = MoreSamples.darkPreferences
    /\ LocalStorage.getSummaryHistory b' = [MoreSamples.firstItem].
Proof.
  exact (preferences_round_trip MoreSamples.oneItemBrowser
           MoreSamples.darkPreferences eq_refl eq_refl).
Defined.

(** ** The content processor *)

Section ProcessorFacts.

Import ContentProcessor.

Variable P : Platform.
Variable franc : option (jsstring -> outcome jsstring).

Lemma detectLanguage_through_policy (text : jsstring) :
  LanguageDetection.detectLanguage franc text
  = LanguageDetection.languageName
      (LanguageDetection.francDetect franc (LanguageDetection.policySample text)).
Proof.
  unfold LanguageDetection.detectLanguage. rewrite sampleText_policy.
  destruct (eqb (trim text) []) eqn:Hblank; [|reflexivity].
  apply eqb_true, trim_blank in Hblank.
  now rewrite francDetect_blank by now apply policySample_blank.
Qed.

(** The language of a text of 5000 characters or more is detected on
    three windows of its first 5000. *)
Lemma detectLanguage_window (text : jsstring) :
  5000 <= length text ->
  LanguageDetection.detectLanguage franc (slice text 0 5000)
  = LanguageDetection.languageName
      (LanguageDetection.francDetect franc
         (firstn 600 text ++ str " "
          ++ firstn 600 (skipn 2200 text) ++ str " "
          ++ firstn 600 (skipn 4400 text))).
Proof.
  intros Hlong.
  change 0%Z with (Z.of_nat 0). change 5000%Z with (Z.of_nat 5000).
  rewrite slice_nat by lia. rewrite Nat.sub_0_r, skipn_O.
  rewrite detectLanguage_through_policy.
  unfold LanguageDetection.policySample.
  rewrite length_firstn, Nat.min_l by exact Hlong.
  change (5000 <=? 1000) with false. change (5000 <=? 2000) with false.
  change (5000 / 2 - 300) with 2200. change (5000 - 600) with 4400.
  cbv iota.
  rewrite firstn_firstn, !skipn_firstn_comm, firstn_firstn.
  change (Nat.min 600 5000) with 600.
  change (Nat.min 600 (5000 - 2200)) with 600.
  change (5000 - 4400) with 600.
  reflexivity.
Qed.

(** X22. Whatever is typed or uploaded, if the text to summarize is
    empty or white space only, [processContent] throws [No content to
    summarize. Please enter text or upload a valid file.] *)
Theorem processContent_blank (params : ProcessContentParams)
    (text sourceType_ fileName_ : jsstring) :
  source P params = Ok (text, sourceType_, fileName_) ->
  trim text = [] ->
  processContent P franc params
  = Throw (str "No content to summarize. Please enter text or upload a valid file.").
Proof.
  intros Hsource Hblank. unfold processContent. rewrite Hsource. cbn [bind].
  now rewrite Hblank.
Qed.

(** X23. For a typed text of 5000 characters or more with the source
    language on [auto], the whole text goes into the payload, but its
    language is detected on three windows of its first 5000 characters
    only: characters 0 to 599, 2200 to 2799 and 4400 to 4999. *)
Theorem processContent_language_window (params : ProcessContentParams) :
  file params = None ->
  sourceLanguage params = str "auto" ->
  5000 <= length (content params) ->
  trim (content params) <> [] ->
  exists processed,
    processContent P franc params = Ok processed
    /\ payloadContent (payload processed) = content params
    /\ detectedLanguage processed
       = LanguageDetection.languageName
           (LanguageDetection.francDetect franc
              (firstn 600 (content params) ++ str " "
               ++ firstn 600 (skipn 2200 (content params)) ++ str " "
               ++ firstn 600 (skipn 4400 (content params))))
    /\ payloadSourceLanguage (payload processed) = detectedLanguage processed.
Proof.
  intros Hfile Hauto Hlong Hsome. unfold processContent, source.
  rewrite Hfile. cbn [bind].
  destruct (eqb (trim (content params)) []) eqn:Hblank;
    [now apply eqb_true in Hblank|].
  rewrite Hauto, eqb_refl. eexists. split; [reflexivity|].
  cbn [payload payloadContent detectedLanguage payloadSourceLanguage].
  rewrite detectLanguage_window by exact Hlong. repeat split.
Qed.

(** X24. When a file is given and its extraction throws, [processContent]
    throws [Failed to process file: ] followed by the message, whatever
    text was typed besides; so a file over 50 MB is refused with [Failed
    to process file: File size exceeds maximum allowed size (50MB)]. *)
Theorem processContent_file_failure (params : ProcessContentParams)
    (f : File) (message : jsstring) :
  file params = Some f ->
  FileProcessors.extractTextFromFile P f = Throw message ->
  processContent P franc params
  = Throw (str "Failed to process file: " ++ message).
Proof.
  intros Hfile Hthrow. unfold processContent, source.
  now rewrite Hfile, Hthrow.
Qed.

End ProcessorFacts.

Lemma processContent_blank_witness :
  ContentProcessor.source Samples.examplePlatform MoreSamples.blankRequest
  = Ok (str "   ", str "text", [])
  /\ trim (str "   ") = []
  /\ ContentProcessor.processContent Samples.examplePlatform None
       MoreSamples.blankRequest
     = Throw (str "No content to summarize. Please enter text or upload a valid file.").
Proof.
  split; [reflexivity|]. split; [reflexivity|].
  exact (processContent_blank Samples.examplePlatform None MoreSamples.blankRequest
           (str "   ") (str "text") [] eq_refl eq_refl).
Defined.

Lemma processContent_file_failure_witness :
  ContentProcessor.file MoreSamples.oversizeRequest = Some Samples.oversizeFile
  /\ FileProcessors.extractTextFromFile Samples.examplePlatform Samples.oversizeFile
     = Throw (str "File size exceeds maximum allowed size (50MB)")
  /\ ContentProcessor.processContent Samples.examplePlatform None
       MoreSamples.oversizeRequest
     = Throw (str "Failed to process file: File size exceeds maximum allowed size (50MB)").
Proof.
  split; [reflexivity|]. split; [reflexivity|].
  exact (processContent_file_failure Samples.examplePlatform None
           MoreSamples.oversizeRequest Samples.oversizeFile
           (str "File size exceeds maximum allowed size (50MB)")
           eq_refl eq_refl).
Defined.

Lemma processContent_language_window_witness :
  5000 <= length (ContentProcessor.content MoreSamples.longRequest)
  /\ exists processed,
       ContentProcessor.processContent Samples.examplePlatform
         (Some (fun _ => Ok (str "lat"))) MoreSamples.longRequest = Ok processed
       /\ ContentProcessor.detectedLanguage processed = str "Latin".
Proof.
  assert (Hlong : 5000 <= length (ContentProcessor.content MoreSamples.longRequest))
    by (vm_compute; lia).
  assert (Hsome : trim (ContentProcessor.content MoreSamples.longRequest) <> [])
    by (vm_compute; discriminate).
  split; [exact Hlong|].
  destruct (processContent_language_window Samples.examplePlatform
              (Some (fun _ => Ok (str "lat"))) MoreSamples.longRequest
              eq_refl eq_refl Hlong Hsome)
    as (processed & Hrun & _ & Hlanguage & _).
  exists processed. split; [exact Hrun|].
  rewrite Hlanguage. vm_compute. reflexivity.
Defined.

(** ** The upload box *)

Section UploaderFacts.

Import FileUploader.

Variable P : Platform.

(** X25. The upload box hands [onDrop] one file at a time, of type PDF,
    DOCX, DOC, TXT or HTML ([maxFiles: 1] and [accept] of [useDropzone]).
    With the default limit of 10485760 bytes, a PDF or DOC file within
    the limit that is dropped alone always reaches [onFileContent], with
    a text that is not empty. *)
Theorem onDrop_delivers (file : File) :
  (file_size file <= 10485760)%N ->
  FileProcessors.familyOf (file_type file) (FileProcessors.extensionOf P file)
  = FileProcessors.PdfFile
  \/ FileProcessors.familyOf (file_type file) (FileProcessors.extensionOf P file)
     = FileProcessors.DocFile ->
  exists text type,
    onDrop P (Some defaultMaxSize) [file] = FileContent text type
    /\ text <> [].
Proof.
  intros Hsize Hfamily.
  assert (Hlimit : (file_size file <= FileProcessors.MAX_FILE_SIZE)%N)
    by (change FileProcessors.MAX_FILE_SIZE with 52428800%N; lia).
  pose proof (never_refused_routes P file Hlimit) as Hrun.
  unfold onDrop, defaultMaxSize.
  destruct (Z.ltb_spec 10485760 (Z.of_N (file_size file))); [lia|].
  destruct Hfamily as [Hfamily|Hfamily]; rewrite Hfamily in Hrun;
    destruct Hrun as (result & -> & _ & Hsome);
    now exists (FileProcessors.text result), (FileProcessors.type result).
Qed.

(** A file over the limit is told apart before it is read: the toast
    names the limit in megabytes, rounded, and with the default limit
    reads [File too large. Maximum size is 10MB.] *)
Lemma onDrop_too_large (file : File) (others : list File) (limit : Z) :
  (limit < Z.of_N (file_size file))%Z ->
  onDrop P (Some limit) (file :: others)
  = ToastError (str "File too large. Maximum size is "
                ++ decimalZ (roundMegabytes limit) ++ str "MB.")
  /\ decimalZ (roundMegabytes defaultMaxSize) = str "10".
Proof.
  intros Hlarge. unfold onDrop.
  now destruct (Z.ltb_spec limit (Z.of_N (file_size file))); [|lia].
Qed.

End UploaderFacts.

Lemma onDrop_delivers_witness :
  (file_size MoreSamples.memoFile <= 10485760)%N
  /\ FileProcessors.familyOf (file_type MoreSamples.memoFile)
       (FileProcessors.extensionOf Samples.examplePlatform MoreSamples.memoFile)
     = FileProcessors.DocFile
  /\ exists text type,
       FileUploader.onDrop Samples.examplePlatform
         (Some FileUploader.defaultMaxSize) [MoreSamples.memoFile]
       = FileUploader.FileContent text type
       /\ text <> [].
Proof.
  assert (H : (file_size MoreSamples.memoFile <= 10485760)%N)
    by (vm_compute; discriminate).
  split; [exact H|]. split; [reflexivity|].
  exact (onDrop_delivers Samples.examplePlatform MoreSamples.memoFile H
           (or_intror eq_refl)).
Defined.

(** The sample file reaches [onFileContent] as it reads. *)
Example onDrop_memo :
  FileUploader.onDrop Samples.examplePlatform
    (Some FileUploader.defaultMaxSize) [MoreSamples.memoFile]
  = FileUploader.FileContent (str "Memo: call at noon.") (str "DOC").
Proof. vm_compute. reflexivity. Qed.

Lemma onDrop_too_large_witness :
  (FileUploader.defaultMaxSize < Z.of_N (file_size Samples.oversizeFile))%Z
  /\ FileUploader.onDrop Samples.examplePlatform
       (Some FileUploader.defaultMaxSize) [Samples.oversizeFile]
     = FileUploader.ToastError (str "File too large. Maximum size is 10MB.").
Proof.
  assert (H : (FileUploader.defaultMaxSize
               < Z.of_N (file_size Samples.oversizeFile))%Z) by reflexivity.
  split; [exact H|].
  exact (proj1 (onDrop_too_large Samples.examplePlatform Samples.oversizeFile []
                  FileUploader.defaultMaxSize H)).
Defined.

(** ** The summary endpoint *)

Section ApiFacts.

Import SummarizeApi.

Lemma truncatedContent_bounded (data : RequestData) :
  (Z.of_nat (length (truncatedContent data)) <= 100049)%Z.
Proof.
  unfold truncatedContent, maxContentLength.
  destruct (Z.ltb_spec 100000 (Z.of_nat (length (content data)))) as [Hlong|Hshort];
    [|lia].
  pose proof (Z2Nat.id 100000 ltac:(lia)) as Hcut.
  remember (Z.to_nat 100000) as cut eqn:Hdef. clear Hdef.
  rewrite <- Hcut, substring_prefix, length_app, length_firstn.
  change (length (str "... [Content truncated due to length limitations]"))
    with 49.
  lia.
Qed.

Variable apiKey : jsstring.

(** X26. The model is only ever asked with the model name and token
    limit of the code and a content of at most 100049 characters (100000
    of the text and the note that it was cut): two models that agree on
    such requests get the same answers from the handler. *)
Theorem handler_bounded_request
    (create1 create2 : MessageRequest -> ApiError + jsstring)
    (method : jsstring) (data : RequestData) :
  (forall request,
      model request = str "claude-3-opus-20240229" ->
      max_tokens request = 4000 ->
      (Z.of_nat (length (userContent request)) <= 100049)%Z ->
      create1 request = create2 request) ->
  handler apiKey create1 method data = handler apiKey create2 method data.
Proof.
  intros Hagree. unfold handler, attempt.
  rewrite Hagree; [reflexivity | reflexivity | reflexivity |].
  apply truncatedContent_bounded.
Qed.

(** X27. A well-formed POST request on a server without an API key is
    answered 500 with [Anthropic API key error: Missing Anthropic API
    key. Please add ANTHROPIC_API_KEY to your environment variables.],
    and the model is not asked. *)
Theorem handler_missing_key (create : MessageRequest -> ApiError + jsstring)
    (data : RequestData) :
  trim (content data) <> [] ->
  targetLanguage data <> [] ->
  summaryLength data <> [] ->
  handler [] create (str "POST") data
  = respond 500
      (Error (str "Anthropic API key error: Missing Anthropic API key. Please add ANTHROPIC_API_KEY to your environment variables.")).
Proof.
  intros Hcontent Htarget Hlength. unfold handler, attempt.
  assert (Hne : forall s : jsstring, s <> [] -> eqb s [] = false)
    by (intros s Hs; destruct (eqb s []) eqn:E;
        [now apply eqb_true in E | reflexivity]).
  assert (Hraw : content data <> []) by (intros H; now rewrite H in Hcontent).
  rewrite (Hne _ Hraw), (Hne _ Hcontent), (Hne _ Htarget), (Hne _ Hlength).
  reflexivity.
Qed.

(** X28. The handler answers 200 only to a POST request with a content
    that is not blank, a target language and a summary length, on a
    server with an API key, when the model answered: the body is then
    the model's text. *)
Theorem handler_ok_only_if (create : MessageRequest -> ApiError + jsstring)
    (method : jsstring) (data : RequestData) :
  status (handler apiKey create method data) = 200 ->
  method = str "POST"
  /\ trim (content data) <> []
  /\ targetLanguage data <> []
  /\ summaryLength data <> []
  /\ apiKey <> []
  /\ exists summary,
       create {| model := str "claude-3-opus-20240229";
                 max_tokens := 4000;
                 system := generatePrompt data;
                 userContent := truncatedContent data |} = inr summary
       /\ json (handler apiKey create method data) = Summary summary.
Proof.
  unfold handler, attempt, report.
  destruct (eqb method (str "POST")) eqn:Hmethod; cbn [negb];
    [apply eqb_true in Hmethod | discriminate].
  destruct (eqb (content data) []); cbn [orb]; [discriminate|].
  destruct (eqb (trim (content data)) []) eqn:Hcontent; [discriminate|].
  destruct (eqb (targetLanguage data) []) eqn:Htarget; [discriminate|].
  destruct (eqb (summaryLength data) []) eqn:Hlength; [discriminate|].
  destruct (eqb apiKey []) eqn:Hkey; [discriminate|].
  destruct (create _) as [error|summary] eqn:Hcreate.
  - repeat match goal with
           | |- context [if ?b then _ else _] => destruct b
           end; discriminate.
  - intros _. repeat split; try (now apply eqb_false); try assumption.
    now exists summary.
Qed.

End ApiFacts.

Lemma handler_bounded_request_witness :
  SummarizeApi.handler (str "sk-test") MoreSamples.echoModel (str "POST")
    MoreSamples.validRequest
  = SummarizeApi.handler (str "sk-test")
      (fun request =>
         if (Z.of_nat (length (SummarizeApi.userContent request)) <=? 100049)%Z
         then MoreSamples.echoModel request
         else inl {| SummarizeApi.name := str "Error";
                     SummarizeApi.message := str "too long" |})
      (str "POST") MoreSamples.validRequest.
Proof.
  apply handler_bounded_request.
  intros request _ _ Hbound.
  now destruct (Z.leb_spec (Z.of_nat (length (SummarizeApi.userContent request)))
                  100049); [|lia].
Defined.

Lemma handler_missing_key_witness :
  SummarizeApi.handler [] MoreSamples.echoModel (str "POST") MoreSamples.validRequest
  = SummarizeApi.respond 500
      (SummarizeApi.Error (str "Anthropic API key error: Missing Anthropic API key. Please add ANTHROPIC_API_KEY to your environment variables.")).
Proof.
  apply handler_missing_key; vm_compute; discriminate.
Defined.

Lemma handler_ok_only_if_witness :
  SummarizeApi.status
    (SummarizeApi.handler (str "sk-test") MoreSamples.echoModel (str "POST")
       MoreSamples.validRequest) = 200
  /\ SummarizeApi.json
       (SummarizeApi.handler (str "sk-test") MoreSamples.echoModel (str "POST")
          MoreSamples.validRequest)
     = SummarizeApi.Summary (str "Un texte.").
Proof.
  assert (H : SummarizeApi.status
                (SummarizeApi.handler (str "sk-test") MoreSamples.echoModel
                   (str "POST") MoreSamples.validRequest) = 200)
    by reflexivity.
  split; [exact H|].
  destruct (handler_ok_only_if (str "sk-test") MoreSamples.echoModel (str "POST")
              MoreSamples.validRequest H)
    as (_ & _ & _ & _ & _ & summary & Hcreate & Hjson).
  rewrite Hjson. f_equal. now injection Hcreate as <-.
Defined.

(* ================================================================== *)
(** * Part IV: a page that fails, and promises that never settle *)
(* ================================================================== *)

(** ** Making runs of white space single spaces *)

Section CollapseFacts.




















End CollapseFacts.

(** ** The PDF engine, with promises that may never settle *)

Section PromiseFacts.

Import PdfPromises.

Variable P : Platform.

(** On documents whose promises all settle, the engine is the one of
    [PdfUtils]. *)
Lemma settled_pageLoop (total : nat) (rest : list PdfPage) :
  forall pageNum text,
    pageLoop total pageNum (map settled rest) text
    = Some (PdfUtils.pageLoop total pageNum rest text).
Proof.
  induction rest as [|page rest IH]; intros pageNum text; [reflexivity|].
  cbn [map pageLoop PdfUtils.pageLoop].
  replace (pageStep total pageNum (settled page) text)
    with (Some (PdfUtils.pageStep total pageNum page text)); [apply IH|].
  unfold pageStep, PdfUtils.pageStep, settled.
  cbn [getTextContent getSimpleTextContent].
  destruct (textContent page); [reflexivity|].
  now destruct (simpleTextContent page).
Qed.

Lemma settled_extractTextFromPdf (arrayBuffer : bytes) :
  extractTextFromPdf P (settledLoad P) arrayBuffer
  = Settled (PdfUtils.extractTextFromPdf P arrayBuffer).
Proof.
  unfold extractTextFromPdf, settledLoad, PdfUtils.extractTextFromPdf.
  destruct (getDocument P arrayBuffer) as [d|message]; cbn [bind tryCatch];
    [|reflexivity].
  unfold metadataHeader, PdfUtils.metadataHeader, numPages, settledDocument.
  cbn [getMetadata getPage]. rewrite length_map.
  destruct (metadata d); now rewrite settled_pageLoop.
Qed.

Variable loadDocument : bytes -> outcome Document.








End PromiseFacts.


